(** * Financial-statement dashboard: ratio engine and chat context builder

    A shallow embedding of [python.py]: the pandas computation of
    [process_financial_data], the current-ratio block of the page script,
    the two Gemini calls [get_ai_analysis] and [get_chat_response], and the
    session handling of the page script.

    Conventions of the embedding.
    - A Python [str] is a Rocq [string] holding its UTF-8 encoding;
      [startswith] and [+] act alike on both.  The case-insensitive regular
      expression search of [Series.str.contains] works on code points, which
      [codepoints] recovers from the encoding.
    - A numeric cell is an IEEE-754 binary64 value, the primitive [float]:
      what [pd.to_numeric(..., errors='coerce')] leaves in a float64 column,
      a cell that is not a number being NaN.  Columns of integers (dtype
      int64) have a section of their own, with the computation on both
      dtypes.
    - A DataFrame is the list of its rows in file order.
    - An exception is a value of [exn]; code that may raise returns a
      [result]. *)

From Stdlib Require Import Floats ZArith NArith Bool List String Ascii Lia.
Import ListNotations.

Local Open Scope string_scope.

(* ================================================================== *)
(** * Strings *)

Module Str.

(** [s.startswith(p)] *)
Definition startswith (s p : string) : bool := String.prefix p s.

Definition nl : string := String (ascii_of_nat 10) EmptyString.

Definition bytes (s : string) : list N := map N_of_ascii (list_ascii_of_string s).

(** Code points of a UTF-8 byte sequence.  A byte that does not start a
    complete sequence is passed through as it is. *)
Fixpoint utf8_decode (bs : list N) : list N :=
  match bs with
  | [] => []
  | b0 :: t0 =>
    if (b0 <? 192)%N then b0 :: utf8_decode t0
    else if (b0 <? 224)%N then
      match t0 with
      | b1 :: t1 => ((b0 - 192) * 64 + (b1 - 128))%N :: utf8_decode t1
      | [] => [b0]
      end
    else if (b0 <? 240)%N then
      match t0 with
      | b1 :: b2 :: t2 =>
          ((b0 - 224) * 4096 + (b1 - 128) * 64 + (b2 - 128))%N :: utf8_decode t2
      | _ => b0 :: utf8_decode t0
      end
    else
      match t0 with
      | b1 :: b2 :: b3 :: t3 =>
          ((b0 - 240) * 262144 + (b1 - 128) * 4096 + (b2 - 128) * 64 + (b3 - 128))%N
            :: utf8_decode t3
      | _ => b0 :: utf8_decode t0
      end
  end.

Definition codepoints (s : string) : list N := utf8_decode (bytes s).

Section Search.
(** The case folding of the regular-expression engine, one code point
    at a time: two characters match under [re.IGNORECASE] when they
    fold to the same code point. *)
Variable fold : N -> N.

Fixpoint match_here (pat txt : list N) : bool :=
  match pat, txt with
  | [], _ => true
  | _ :: _, [] => false
  | p :: pat', c :: txt' => (fold p =? fold c)%N && match_here pat' txt'
  end.

(** [re.search] of a literal pattern: a match at some offset. *)
Fixpoint search (pat txt : list N) : bool :=
  match_here pat txt ||
  match txt with
  | [] => false
  | _ :: txt' => search pat txt'
  end.

(** One element of [Series.str.contains(pat, case=False, na=False)]:
    a cell that holds no string counts as no match. *)
Definition str_contains (pat : string) (cell : option string) : bool :=
  match cell with
  | None => false
  | Some s => search (codepoints pat) (codepoints s)
  end.
End Search.

(** Case folding of [re.IGNORECASE] on the letters of the Vietnamese
    alphabet (Basic Latin, Latin-1 Supplement, the six letters of Latin
    Extended-A and -B, Latin Extended Additional) and on the characters
    the engine identifies with them: the dotted capital and the dotless
    small i with i, the long s with s, the Kelvin sign with k, and in
    Latin Extended Additional the long s with dot with its letter and
    the capital sharp s with the small one.  The identity elsewhere.
    Used to run the model on concrete tables. *)
Definition vn_lower (c : N) : N :=
  if ((65 <=? c) && (c <=? 90))%N then (c + 32)%N
  else if ((192 <=? c) && (c <=? 222) && negb (c =? 215))%N then (c + 32)%N
  else if ((c =? 258) || (c =? 272) || (c =? 296) || (c =? 360) || (c =? 416))%N
    then (c + 1)%N
  else if (c =? 431)%N then 432%N
  else if ((c =? 304) || (c =? 305))%N then 105%N
  else if (c =? 383)%N then 115%N
  else if (c =? 8490)%N then 107%N
  else if (c =? 7835)%N then 7777%N
  else if (c =? 7838)%N then 223%N
  else if ((7680 <=? c) && (c <=? 7929) && N.even c
           && negb ((7830 <=? c) && (c <=? 7839)))%N then (c + 1)%N
  else c.

End Str.


(* ================================================================== *)
(** * Exceptions *)

(** The classes the program names, below the base class [Exception];
    [Other name bases] is any further class, declared as
    [class name(bases)] (with no base named: [class name(Exception)]). *)
#[local] Set Warnings "-register-all".
Inductive exn_class :=
| Exception
| ValueError
| IndexError
| ZeroDivisionError
| APIError
| Other (name : string) (bases : list exn_class).

(** An exception instance, with the text [str(e)]. *)
Record exn := mkExn { exn_cls : exn_class; exn_str : string }.

(** The same class: classes are told apart by their names. *)
Definition exn_class_eqb (c d : exn_class) : bool :=
  match c, d with
  | Exception, Exception | ValueError, ValueError | IndexError, IndexError
  | ZeroDivisionError, ZeroDivisionError | APIError, APIError => true
  | Other n _, Other m _ => String.eqb n m
  | _, _ => false
  end.

(** [issubclass(c, d)]: [c] is [d], or [d] is the base class of all, or
    one of the bases of [c] derives from [d]. *)
Fixpoint issubclass (c d : exn_class) : bool :=
  exn_class_eqb c d
  || match d with
     | Exception => true
     | _ => false
     end
  || match c with
     | Other _ bases => existsb (fun b => issubclass b d) bases
     | _ => false
     end.

(** [isinstance(e, c)], the test of an [except c] clause. *)
Definition isinstance (e : exn) (c : exn_class) : bool :=
  issubclass (exn_cls e) c.

(** Classes of the libraries: the two subclasses of [APIError] of
    [google.genai.errors], and the error of the [.str] accessor. *)
Definition ClientError : exn_class := Other "ClientError" [APIError].
Definition ServerError : exn_class := Other "ServerError" [APIError].
Definition AttributeError : exn_class := Other "AttributeError" [].

Inductive result (A : Type) :=
| Ok (a : A)
| Raise (e : exn).
Arguments Ok {A} a.
Arguments Raise {A} e.

Definition bind {A B} (m : result A) (k : A -> result B) : result B :=
  match m with
  | Ok a => k a
  | Raise e => Raise e
  end.

Notation "x <- m ;; k" := (bind m (fun x => k))
  (at level 61, m at next level, right associativity).

(** The [except] clauses of a [try], in order: the first clause whose
    class the exception is an instance of handles it; with none, the
    exception goes on. *)
Fixpoint handle {A} (clauses : list (exn_class * (exn -> result A)))
    (e : exn) : result A :=
  match clauses with
  | [] => Raise e
  | (c, h) :: rest => if isinstance e c then h e else handle rest e
  end.

Definition try_except {A} (body : result A)
    (clauses : list (exn_class * (exn -> result A))) : result A :=
  match body with
  | Ok a => Ok a
  | Raise e => handle clauses e
  end.

(* ================================================================== *)
(** * The ratio engine *)

Local Open Scope float_scope.

(** 1e-9: the float64 closest to it. *)
Definition eps : float := 0x1.12e0be826d695p-30.

(** [.fillna(0)] on one element. *)
Definition fillna0 (x : float) : float := if is_nan x then 0 else x.

(** [.replace(0, 1e-9)] on one element. *)
Definition replace0 (x : float) : float := if x =? 0 then eps else x.

(** [x != 0] *)
Definition neq0 (x : float) : bool := negb (x =? 0).

(** A row of the uploaded table: columns 'Chỉ tiêu', 'Năm trước',
    'Năm sau'.  A label cell that holds no string (a number, or nothing)
    is [None]. *)
Record LineItem := mkLineItem {
  chi_tieu : option string;
  nam_truoc : float;
  nam_sau : float
}.

(** A row of the processed table, with the three derived columns
    'Tốc độ tăng trưởng (%)', 'Tỷ trọng Năm trước (%)',
    'Tỷ trọng Năm sau (%)'. *)
Record EnrichedRow := mkEnrichedRow {
  item : LineItem;
  toc_do_tang_truong : float;
  ty_trong_nam_truoc : float;
  ty_trong_nam_sau : float
}.

Definition TONG_CONG_TAI_SAN : string := "TỔNG CỘNG TÀI SẢN".
Definition TAI_SAN_NGAN_HAN : string := "TÀI SẢN NGẮN HẠN".
Definition NO_NGAN_HAN : string := "NỢ NGẮN HẠN".

Definition missing_total_msg : string :=
  "Không tìm thấy chỉ tiêu 'TỔNG CỘNG TÀI SẢN'.".

(** Lines 20-22: both numeric columns, NaN replaced by 0. *)
Definition coerce (r : LineItem) : LineItem :=
  mkLineItem (chi_tieu r) (fillna0 (nam_truoc r)) (fillna0 (nam_sau r)).

(** Lines 25-27, on one row of the coerced table. *)
Definition growth (r : LineItem) : float :=
  ((nam_sau r - nam_truoc r) / replace0 (nam_truoc r)) * 100.

(** Lines 39-40. *)
Definition divisor (tong_tai_san : float) : float :=
  if neq0 tong_tai_san then tong_tai_san else eps.

(** Lines 43-44, on one row. *)
Definition enrich (divisor_N_1 divisor_N : float) (r : LineItem) : EnrichedRow :=
  mkEnrichedRow r (growth r)
    ((nam_truoc r / divisor_N_1) * 100)
    ((nam_sau r / divisor_N) * 100).

(** The current-ratio metrics: the text "N/A" or a number. *)
Inductive Metric :=
| NA
| Num (x : float).

Record CurrentRatio := mkCurrentRatio {
  thanh_toan_hien_hanh_N_1 : Metric;
  thanh_toan_hien_hanh_N : Metric;
  delta : Metric
}.

(** What a pass of the script puts on the page. *)
Inductive Widget :=
| w_error (text : string)
| w_warning (text : string)
| w_info (text : string)
| w_subheader (text : string)
| w_dataframe (df : list EnrichedRow)
| w_metric (label : string) (value : Metric) (delta : option float)
| w_markdown (text : string)
| w_chat_message (role content : string)
| w_chat_input (disabled : bool).

(** [.iloc[0]] of a column. *)
Definition iloc0 (col : list float) : result float :=
  match col with
  | [] => Raise (mkExn IndexError "single positional indexer is out-of-bounds")
  | x :: _ => Ok x
  end.

Definition str_accessor_msg : string :=
  "Can only use .str accessor with string values!".

(** [df['Chỉ tiêu'].str] (line 30): the accessor is refused on a column
    that is not of strings.  A label column with rows and no string in
    it is read as a column of numbers, and the accessor raises; a column
    with a string in it, or with no rows, is accepted. *)
Definition str_accessor (labels : list (option string)) : result unit :=
  match labels with
  | [] => Ok tt
  | _ :: _ =>
      if existsb (fun l => match l with Some _ => true | None => false end) labels
      then Ok tt
      else Raise (mkExn AttributeError str_accessor_msg)
  end.

Section RatioEngine.
Variable fold : N -> N.

(** Line 30: the rows whose label contains the text. *)
Definition rows_matching (pat : string) (df : list LineItem) : list LineItem :=
  filter (fun r => Str.str_contains fold pat (chi_tieu r)) df.

Definition process_financial_data (df : list LineItem)
  : result (list EnrichedRow) :=
  let df := map coerce df in
  _ <- str_accessor (map chi_tieu df) ;;
  let tong_tai_san_row := rows_matching TONG_CONG_TAI_SAN df in
  match tong_tai_san_row with
  | [] => Raise (mkExn ValueError missing_total_msg)
  | r0 :: _ =>
      let tong_tai_san_N_1 := nam_truoc r0 in
      let tong_tai_san_N := nam_sau r0 in
      let divisor_N_1 := divisor tong_tai_san_N_1 in
      let divisor_N := divisor tong_tai_san_N in
      Ok (map (enrich divisor_N_1 divisor_N) df)
  end.

(** [df_processed[df_processed['Chỉ tiêu'].str.contains(pat, ...)][col].iloc[0]] *)
Definition first_value (pat : string) (col : LineItem -> float)
    (df_processed : list EnrichedRow) : result float :=
  iloc0 (map col (rows_matching pat (map item df_processed))).

(** Lines 170-187: the three metrics start as "N/A" and are assigned
    together, under one test on both liabilities. *)
Definition current_ratio (df_processed : list EnrichedRow) : result CurrentRatio :=
  tsnh_n <- first_value TAI_SAN_NGAN_HAN nam_sau df_processed ;;
  tsnh_n_1 <- first_value TAI_SAN_NGAN_HAN nam_truoc df_processed ;;
  no_ngan_han_N <- first_value NO_NGAN_HAN nam_sau df_processed ;;
  no_ngan_han_N_1 <- first_value NO_NGAN_HAN nam_truoc df_processed ;;
  if neq0 no_ngan_han_N && neq0 no_ngan_han_N_1 then
    let n := tsnh_n / no_ngan_han_N in
    let n_1 := tsnh_n_1 / no_ngan_han_N_1 in
    Ok (mkCurrentRatio (Num n_1) (Num n) (Num (n - n_1)))
  else Ok (mkCurrentRatio NA NA NA).

(** Lines 170-205: the metrics as the block leaves them, and what it
    shows.  A lookup that fails leaves the three metrics at "N/A". *)
Definition current_ratio_block (df_processed : list EnrichedRow)
  : result (CurrentRatio * list Widget) :=
  try_except
    (cr <- current_ratio df_processed ;;
     Ok (cr,
         [w_metric "Chỉ số Thanh toán Hiện hành (Năm trước)"
            (thanh_toan_hien_hanh_N_1 cr) None;
          w_metric "Chỉ số Thanh toán Hiện hành (Năm sau)"
            (thanh_toan_hien_hanh_N cr)
            (match delta cr with Num d => Some d | NA => None end)]))
    [(IndexError, fun _ =>
        Ok (mkCurrentRatio NA NA NA,
            [w_warning "Thiếu chỉ tiêu 'TÀI SẢN NGẮN HẠN' hoặc 'NỢ NGẮN HẠN' để tính chỉ số."]));
     (ZeroDivisionError, fun _ =>
        Ok (mkCurrentRatio NA NA NA,
            [w_warning "Không thể tính chỉ số Thanh toán Hiện hành do Nợ Ngắn Hạn bằng 0."]))].

End RatioEngine.

(* ================================================================== *)
(** * Integer columns

    [pd.to_numeric] leaves a value column with dtype int64 when each of
    its cells is an integer, and with dtype float64 otherwise, its
    integers converted.  [process_financial_data] above is the
    computation on float64 columns; on int64 columns the comparisons
    with 0 are made on integers, and the difference of two int64 columns
    (line 26) is taken in int64, without a check of overflow, before the
    division converts it.  [process_financial_data_typed] is the
    computation with the dtypes; the two agree on a table of two float64
    columns. *)

(** The int64 value of an integer: its residue modulo 2^64 in
    [-2^63, 2^63). *)
Definition wrap64 (z : Z) : Z := ((z + 2 ^ 63) mod 2 ^ 64 - 2 ^ 63)%Z.

(** A cell of a value column after [pd.to_numeric(..., errors='coerce')]:
    an int64, [Int64 z] holding the value [wrap64 z], or a float (NaN
    when the cell was not a number). *)
Inductive Cell :=
| Int64 (z : Z)
| Float64 (x : float).

(** The cast of an integer to float64: the nearest float64, ties to
    even. *)
Definition float64_of_Z (z : Z) : float :=
  SF2Prim (binary_normalize prec emax z 0 false).

Definition to_float64 (c : Cell) : float :=
  match c with
  | Int64 z => float64_of_Z (wrap64 z)
  | Float64 x => x
  end.

Definition is_int64 (c : Cell) : bool :=
  match c with
  | Int64 _ => true
  | Float64 _ => false
  end.

(** The dtype of a column is int64. *)
Definition dtype_int64 (col : list Cell) : bool := forallb is_int64 col.

(** A row of the uploaded table, with the cells of its value columns. *)
Record TypedItem := mkTypedItem {
  t_chi_tieu : option string;
  t_nam_truoc : Cell;
  t_nam_sau : Cell
}.

(** Lines 20-22 on one cell of a column: an int64 column is left as it
    is; in a float64 column the integers are floats and NaN becomes 0. *)
Definition clean (int64_col : bool) (c : Cell) : Cell :=
  if int64_col then c else Float64 (fillna0 (to_float64 c)).

(** [x != 0] on a cell of a cleaned column. *)
Definition cell_neq0 (c : Cell) : bool :=
  match c with
  | Int64 z => negb (wrap64 z =? 0)%Z
  | Float64 x => neq0 x
  end.

(** [.replace(0, 1e-9)] on a cell, as the division takes it. *)
Definition cell_replace0 (c : Cell) : float :=
  match c with
  | Int64 z => if (wrap64 z =? 0)%Z then eps else float64_of_Z (wrap64 z)
  | Float64 x => replace0 x
  end.

(** [df['Năm sau'] - df['Năm trước']] on a row, as the division takes
    it: an int64 difference for two int64 columns, a float64 difference
    otherwise. *)
Definition cell_sub (c p : Cell) : float :=
  match c, p with
  | Int64 a, Int64 b => float64_of_Z (wrap64 (wrap64 a - wrap64 b))
  | _, _ => to_float64 c - to_float64 p
  end.

(** Lines 25-27 on a row of the cleaned table. *)
Definition growth_typed (r : TypedItem) : float :=
  (cell_sub (t_nam_sau r) (t_nam_truoc r) / cell_replace0 (t_nam_truoc r)) * 100.

(** Lines 39-40. *)
Definition divisor_typed (tong_tai_san : Cell) : float :=
  if cell_neq0 tong_tai_san then to_float64 tong_tai_san else eps.

(** The row with its values as float64. *)
Definition as_float64 (r : TypedItem) : LineItem :=
  mkLineItem (t_chi_tieu r) (to_float64 (t_nam_truoc r)) (to_float64 (t_nam_sau r)).

(** Lines 25-27 and 43-44 on a row of the cleaned table. *)
Definition enrich_typed (divisor_N_1 divisor_N : float) (r : TypedItem)
  : EnrichedRow :=
  mkEnrichedRow (as_float64 r) (growth_typed r)
    ((to_float64 (t_nam_truoc r) / divisor_N_1) * 100)
    ((to_float64 (t_nam_sau r) / divisor_N) * 100).

(** A row of two float64 columns. *)
Definition float64_item (r : LineItem) : TypedItem :=
  mkTypedItem (chi_tieu r) (Float64 (nam_truoc r)) (Float64 (nam_sau r)).

Section TypedEngine.
Variable fold : N -> N.

Definition process_financial_data_typed (df : list TypedItem)
  : result (list EnrichedRow) :=
  let int64_truoc := dtype_int64 (map t_nam_truoc df) in
  let int64_sau := dtype_int64 (map t_nam_sau df) in
  let df :=
    map (fun r => mkTypedItem (t_chi_tieu r)
                    (clean int64_truoc (t_nam_truoc r))
                    (clean int64_sau (t_nam_sau r))) df in
  _ <- str_accessor (map t_chi_tieu df) ;;
  let tong_tai_san_row :=
    filter (fun r => Str.str_contains fold TONG_CONG_TAI_SAN (t_chi_tieu r)) df in
  match tong_tai_san_row with
  | [] => Raise (mkExn ValueError missing_total_msg)
  | r0 :: _ =>
      let tong_tai_san_N_1 := t_nam_truoc r0 in
      let tong_tai_san_N := t_nam_sau r0 in
      let divisor_N_1 := divisor_typed tong_tai_san_N_1 in
      let divisor_N := divisor_typed tong_tai_san_N in
      Ok (map (enrich_typed divisor_N_1 divisor_N) df)
  end.

End TypedEngine.

(* ================================================================== *)
(** * The Gemini calls *)

Local Open Scope string_scope.

(** A turn of [st.session_state.messages]. *)
Record ChatTurn := mkChatTurn { role : string; content : string }.

(** An element of the request: [{"role": r, "parts": [{"text": t}]}]. *)
Record Part := mkPart { text : string }.
Record Content := mkContent { c_role : string; parts : list Part }.

(** The [contents] argument of [generate_content]: the prompt of the
    one-shot call, or the list of turns of the chat call. *)
Inductive Contents :=
| Prompt (p : string)
| Turns (l : list Content).

Definition model_name : string := "gemini-2.5-flash".

Definition upload_prompt : string :=
  "Vui lòng tải file Excel để bắt đầu phân tích và trò chuyện.".
Definition uploaded_prompt : string :=
  "Dữ liệu đã được tải lên thành công! Hãy đặt câu hỏi đầu tiên của bạn.".

(** The beginnings by which the two messages above are recognised. *)
Definition upload_prefix : string := "Vui lòng tải file Excel".
Definition uploaded_prefix : string := "Dữ liệu đã được tải lên".

(** [f"{x}"] of a value that is a string or [None]. *)
Definition fmt (x : option string) : string :=
  match x with
  | Some s => s
  | None => "None"
  end.

(** Lines 82-87. *)
Definition context_prefix (context_data : option string) : string :=
  "Bạn là một chuyên gia phân tích tài chính. Hãy trả lời các câu hỏi của người dùng "
  ++ "dựa trên dữ liệu tài chính đính kèm sau đây (chỉ dùng dữ liệu này để trả lời): "
  ++ Str.nl ++ Str.nl
  ++ "--- DỮ LIỆU TÀI CHÍNH CƠ SỞ ---" ++ Str.nl ++ fmt context_data ++ Str.nl
  ++ "---------------------------" ++ Str.nl
  ++ "Bây giờ, hãy trả lời câu hỏi sau của người dùng: ".

(** Lines 95-100: the role sent for a turn, [None] for an unknown role. *)
Definition gemini_role (message : ChatTurn) : option string :=
  if String.eqb (role message) "user" then Some "user"
  else if String.eqb (role message) "assistant" then Some "model"
  else None.

(** Lines 94-104: the turn a message of the history contributes, if any. *)
Definition history_turn (message : ChatTurn) : option Content :=
  match gemini_role message with
  | Some r =>
      if negb (Str.startswith (content message) upload_prefix)
         && negb (Str.startswith (content message) uploaded_prefix)
      then Some (mkContent r [mkPart (content message)])
      else None
  | None => None
  end.

Fixpoint history_turns (history_messages : list ChatTurn) : list Content :=
  match history_messages with
  | [] => []
  | message :: rest =>
      match history_turn message with
      | Some c => c :: history_turns rest
      | None => history_turns rest
      end
  end.

(** Lines 82-110: the list [contents] sent to the model, from the
    messages of the session (the newest one being the prompt). *)
Definition build_contents (messages : list ChatTurn)
    (context_data : option string) (prompt : string) : list Content :=
  let history_messages := removelast messages in
  let final_prompt_with_context := context_prefix context_data ++ prompt in
  (history_turns history_messages
   ++ [mkContent "user" [mkPart final_prompt_with_context]])%list.

(** Lines 55-60. *)
Definition analysis_prompt (data_for_ai : string) : string :=
  Str.nl
  ++ "        Bạn là một chuyên gia phân tích tài chính chuyên nghiệp. Dựa trên các chỉ số tài chính sau, hãy đưa ra một nhận xét khách quan, ngắn gọn (khoảng 3-4 đoạn) về tình hình tài chính của doanh nghiệp. Đánh giá tập trung vào tốc độ tăng trưởng, thay đổi cơ cấu tài sản và khả năng thanh toán hiện hành."
  ++ Str.nl ++ "        " ++ Str.nl
  ++ "        Dữ liệu thô và chỉ số:" ++ Str.nl
  ++ "        " ++ data_for_ai ++ Str.nl
  ++ "        ".

Definition analysis_api_error (e : exn) : string :=
  "Lỗi gọi Gemini API: Vui lòng kiểm tra Khóa API hoặc giới hạn sử dụng. Chi tiết lỗi: "
  ++ exn_str e.
Definition analysis_unknown_error (e : exn) : string :=
  "Đã xảy ra lỗi không xác định: " ++ exn_str e.
Definition chat_api_error (e : exn) : string :=
  "Lỗi API: Vui lòng kiểm tra Khóa API hoặc vai trò (roles) trong lịch sử chat. Chi tiết lỗi: "
  ++ exn_str e.
Definition chat_unknown_error (e : exn) : string :=
  "Lỗi không xác định khi chat: " ++ exn_str e.

Section Gemini.
(** The language-model service: [genai.Client(api_key=...)] followed by
    [client.models.generate_content(model=..., contents=...)] and
    [response.text], which answers or raises. *)
Variable generate_content : string -> string -> Contents -> result string.

Definition get_ai_analysis (data_for_ai api_key : string) : result string :=
  try_except
    (generate_content api_key model_name (Prompt (analysis_prompt data_for_ai)))
    [(APIError, fun e => Ok (analysis_api_error e));
     (Exception, fun e => Ok (analysis_unknown_error e))].

(** [messages] is [st.session_state.messages], which the function reads. *)
Definition get_chat_response (messages : list ChatTurn)
    (prompt : string) (context_data : option string) (api_key : string)
  : result string :=
  try_except
    (generate_content api_key model_name
       (Turns (build_contents messages context_data prompt)))
    [(APIError, fun e => Ok (chat_api_error e));
     (Exception, fun e => Ok (chat_unknown_error e))].

End Gemini.

(* ================================================================== *)
(** * The page script *)

(** [st.session_state]: the chat history and the cached context. *)
Record Session := mkSession {
  messages : list ChatTurn;
  financial_data_context : option string
}.

(** Lines 126-130. *)
Definition initial_session : Session :=
  mkSession [mkChatTurn "assistant" upload_prompt] None.

(** What the framework hands to one pass of the script: the uploaded
    file as [pd.read_excel] and the renaming of its three columns leave
    it (a table, or the exception they raise), the secret, the button and
    the chat box. *)
Record Inputs := mkInputs {
  uploaded_file : option (result (list LineItem));
  api_key : option string;
  analysis_button : bool;
  chat_input : option string
}.

(** A value that is [None] or an empty string is false in a test. *)
Definition truthy (x : option string) : option string :=
  match x with
  | Some (String a s) => Some (String a s)
  | _ => None
  end.

Definition show_messages (l : list ChatTurn) : list Widget :=
  map (fun message => w_chat_message (role message) (content message)) l.

Section Script.
Variable fold : N -> N.
Variable generate_content : string -> string -> Contents -> result string.
(** Lines 208-219: the table and the two ratios, written out by
    [to_markdown]. *)
Variable data_for_ai : list EnrichedRow -> CurrentRatio -> string.

(** Lines 227-232. *)
Definition analysis_section (inp : Inputs) (data : string)
  : result (list Widget) :=
  if analysis_button inp then
    match truthy (api_key inp) with
    | Some k =>
        ai_result <- get_ai_analysis generate_content data k ;;
        Ok [w_markdown "**Kết quả Phân tích từ Gemini AI:**"; w_info ai_result]
    | None => Ok []
    end
  else Ok [].

(** Lines 244-275: the history after the pass, and what is shown. *)
Definition chat_section (inp : Inputs) (msgs : list ChatTurn) (data : string)
  : result (list ChatTurn * list Widget) :=
  let msgs :=
    match msgs with
    | [m] => if Str.startswith (content m) "Vui lòng tải file"
             then [mkChatTurn "assistant" uploaded_prompt] else msgs
    | _ => msgs
    end in
  match truthy (chat_input inp) with
  | Some prompt =>
      let msgs' := (msgs ++ [mkChatTurn "user" prompt])%list in
      match truthy (api_key inp) with
      | Some k =>
          full_response <-
            get_chat_response generate_content msgs' prompt (Some data) k ;;
          Ok ((msgs' ++ [mkChatTurn "assistant" full_response])%list,
              (show_messages msgs
               ++ [w_chat_input false;
                   w_chat_message "user" prompt;
                   w_chat_message "assistant" full_response])%list)
      | None =>
          Ok (msgs',
              (show_messages msgs
               ++ [w_chat_input false;
                   w_chat_message "user" prompt;
                   w_error "Không có Khóa API để thực hiện chat."])%list)
      end
  | None => Ok (msgs, (show_messages msgs ++ [w_chat_input false])%list)
  end.

(** Lines 146-275: the body of the [try]. *)
Definition upload_body (st : Session) (inp : Inputs)
    (read_excel : result (list LineItem)) : result (Session * list Widget) :=
  df_raw <- read_excel ;;
  df_processed <- process_financial_data fold df_raw ;;
  block <- current_ratio_block fold df_processed ;;
  let data := data_for_ai df_processed (fst block) in
  analysis <- analysis_section inp data ;;
  chat <- chat_section inp (messages st) data ;;
  Ok (mkSession (fst chat) (Some data),
      ([w_subheader "2. Tốc độ Tăng trưởng & 3. Tỷ trọng Cơ cấu Tài sản";
        w_dataframe df_processed;
        w_subheader "4. Các Chỉ số Tài chính Cơ bản"]
       ++ snd block
       ++ [w_subheader "5. Nhận xét Tình hình Tài chính (AI Tổng quan)"]
       ++ analysis
       ++ [w_subheader "6. Chatbot Tài chính Tương tác (Hỏi đáp chuyên sâu)"]
       ++ snd chat)%list).

(** Lines 138-284: a pass with a file uploaded. *)
Definition upload_pass (st : Session) (inp : Inputs)
    (read_excel : result (list LineItem)) : result (Session * list Widget) :=
  res <- try_except (upload_body st inp read_excel)
    [(ValueError, fun ve =>
        Ok (mkSession
              [mkChatTurn "assistant"
                 ("Lỗi dữ liệu. Vui lòng tải file mới: " ++ exn_str ve)]
              None,
            [w_error ("Lỗi cấu trúc dữ liệu: " ++ exn_str ve)]));
     (Exception, fun e =>
        Ok (mkSession
              [mkChatTurn "assistant"
                 ("Lỗi xử lý file. Vui lòng tải file mới: " ++ exn_str e)]
              None,
            [w_error ("Có lỗi xảy ra khi đọc hoặc xử lý file: " ++ exn_str e
                      ++ ". Vui lòng kiểm tra định dạng file.")]))] ;;
  Ok (fst res,
      match truthy (api_key inp) with
      | Some _ => snd res
      | None =>
          w_error "Lỗi: Không tìm thấy Khóa API. Vui lòng cấu hình Khóa 'GEMINI_API_KEY' trong Streamlit Secrets."
          :: snd res
      end).

(** Lines 286-297: a pass with no file. *)
Definition idle_pass (st : Session) : result (Session * list Widget) :=
  match messages st with
  | [] => Raise (mkExn IndexError "list index out of range")
  | m0 :: _ =>
      let msgs :=
        if Str.startswith (content m0) uploaded_prefix
        then [mkChatTurn "assistant" upload_prompt] else messages st in
      Ok (mkSession msgs (financial_data_context st),
          (w_info "Vui lòng tải lên file Excel để bắt đầu phân tích và mở khóa khung chat."
           :: w_subheader "6. Chatbot Agribank Tài chính Tương tác (Hỏi đáp chuyên sâu)"
           :: show_messages msgs ++ [w_chat_input true])%list)
  end.

(** One pass of the script over an initialised session. *)
Definition run_script (st : Session) (inp : Inputs)
  : result (Session * list Widget) :=
  match uploaded_file inp with
  | Some read_excel => upload_pass st inp read_excel
  | None => idle_pass st
  end.

End Script.

(** The session a pass leaves, when it does not raise. *)
Definition fst_session (pass : result (Session * list Widget)) : option Session :=
  match pass with
  | Ok (st, _) => Some st
  | Raise _ => None
  end.

(** The widgets other than the table of the processed rows. *)
Definition not_dataframe (w : Widget) : bool :=
  match w with
  | w_dataframe _ => false
  | _ => true
  end.

(** The specification values that are a zero or a finite number. *)
Definition regular (f : spec_float) : bool :=
  match f with
  | S754_zero _ | S754_finite _ _ _ => true
  | _ => false
  end.

(* ================================================================== *)
(** * Concrete tables and histories *)

Local Open Scope float_scope.

(** The table of the end-to-end example, with the labels of the program. *)
Definition balance_sheet : list LineItem :=
  [mkLineItem (Some "TỔNG CỘNG TÀI SẢN") 100 200;
   mkLineItem (Some "Tài sản ngắn hạn") 50 80;
   mkLineItem (Some "Nợ ngắn hạn") 25 40].

(** The same, the liabilities of the current period being zero. *)
Definition no_current_liability : list LineItem :=
  [mkLineItem (Some "TỔNG CỘNG TÀI SẢN") 100 200;
   mkLineItem (Some "Tài sản ngắn hạn") 50 80;
   mkLineItem (Some "Nợ ngắn hạn") 25 0].

(** A table with no total row. *)
Definition no_total : list LineItem :=
  [mkLineItem (Some "Tài sản ngắn hạn") 50 80;
   mkLineItem None 1 2;
   mkLineItem (Some "Nợ ngắn hạn") 25 40].



(** A table whose first column holds numbers and no text. *)
Definition numeric_labels : list LineItem :=
  [mkLineItem None 1 2;
   mkLineItem None 3 4].

(** A table with two rows that contain the Total-Assets text. *)
Definition two_totals : list LineItem :=
  [mkLineItem (Some "Tiền") 10 20;
   mkLineItem (Some "Tổng cộng tài sản") 100 200;
   mkLineItem (Some "TỔNG CỘNG TÀI SẢN (hợp nhất)") 400 500].

(** A table whose total row is empty in both periods. *)
Definition empty_total : list LineItem :=
  [mkLineItem (Some "TỔNG CỘNG TÀI SẢN") 0 0;
   mkLineItem (Some "Tiền") 10 20].

(** 1e300 (the float64 closest to it) against a prior value of zero. *)
Definition huge_growth : list LineItem :=
  [mkLineItem (Some "TỔNG CỘNG TÀI SẢN") 100 200;
   mkLineItem (Some "Tiền") 0 0x1.7e43c8800759cp+996].

(** A question of the user that begins with the text of the first
    bootstrap message, and one that quotes it further on. *)
Definition question_with_prefix : ChatTurn :=
  mkChatTurn "user" "Vui lòng tải file Excel mẫu ở đâu?".
Definition question_with_quote : ChatTurn :=
  mkChatTurn "user" "Thông báo ghi: Vui lòng tải file Excel".

(** Lines 244-245: the history the chat section starts from.  A history
    that is the single request for a file becomes the single announcement
    of the upload. *)
Definition announce (msgs : list ChatTurn) : list ChatTurn :=
  match msgs with
  | [m] => if Str.startswith (content m) "Vui lòng tải file"
           then [mkChatTurn "assistant" uploaded_prompt] else msgs
  | _ => msgs
  end.

(** The string a call of [get_ai_analysis] comes back with: the answer of
    the service, or the diagnostic of the handler that catches what the
    service raised. *)
Definition analysis_reply
    (generate_content : string -> string -> Contents -> result string)
    (data_for_ai api_key : string) : string :=
  match generate_content api_key model_name
          (Prompt (analysis_prompt data_for_ai)) with
  | Ok answer => answer
  | Raise e =>
      if isinstance e APIError then analysis_api_error e
      else analysis_unknown_error e
  end.

(** The same for [get_chat_response]. *)
Definition chat_reply
    (generate_content : string -> string -> Contents -> result string)
    (messages : list ChatTurn) (prompt : string)
    (context_data : option string) (api_key : string) : string :=
  match generate_content api_key model_name
          (Turns (build_contents messages context_data prompt)) with
  | Ok answer => answer
  | Raise e =>
      if isinstance e APIError then chat_api_error e
      else chat_unknown_error e
  end.

(** The message the history is reset to when the total row is missing. *)
Definition data_error_turn (ve : exn) : ChatTurn :=
  mkChatTurn "assistant" ("Lỗi dữ liệu. Vui lòng tải file mới: " ++ exn_str ve).

(** A service that is out of quota, and a stand-in for [to_markdown]. *)
Definition exhausted_service : string -> string -> Contents -> result string :=
  fun _ _ _ => Raise (mkExn APIError "429 RESOURCE_EXHAUSTED").
Definition answering_service : string -> string -> Contents -> result string :=
  fun _ _ _ => Ok "Tài sản tăng gấp đôi.".
Definition plain_data_for_ai : list EnrichedRow -> CurrentRatio -> string :=
  fun _ _ => "data".

(* ================================================================== *)
(** * Facts of float64 arithmetic

    The primitive operations are related to the binary64 specification
    [SpecFloat] through [Prim2SF]; rounding is to nearest, ties to even. *)

Section Float64.
Local Open Scope Z_scope.

Lemma SFcompare_finite_refl (s : bool) (m : positive) (e : Z) :
  SFcompare (S754_finite s m e) (S754_finite s m e) = Some Eq.
Proof.
  simpl. rewrite Z.compare_refl.
  change (Pos.compare_cont Eq m m) with (Pos.compare m m).
  rewrite Pos.compare_refl. destruct s; reflexivity.
Qed.

(** What the tests [is_nan], [=? 0] and [is_infinity] say of a float,
    by the shape of its specification value. *)
Lemma Prim2SF_cases (x : float) :
  match Prim2SF x with
  | S754_nan => is_nan x = true /\ (x =? 0)%float = false
  | S754_zero _ => is_nan x = false /\ (x =? 0)%float = true
                   /\ is_infinity x = false
  | S754_infinity _ => is_nan x = false /\ (x =? 0)%float = false
                       /\ is_infinity x = true
  | S754_finite _ _ _ => is_nan x = false /\ (x =? 0)%float = false
                         /\ is_infinity x = false
  end.
Proof.
  unfold is_nan, is_infinity.
  rewrite !FloatAxioms.eqb_spec, abs_spec.
  change (Prim2SF 0) with (S754_zero false).
  change (Prim2SF infinity) with (S754_infinity false).
  destruct (Prim2SF x) as [s|s| |s m e].
  - destruct s; repeat split; reflexivity.
  - destruct s; repeat split; reflexivity.
  - split; reflexivity.
  - unfold SFeqb at 1. rewrite SFcompare_finite_refl.
    destruct s; repeat split; reflexivity.
Qed.

Lemma finite_shape (x : float) :
  (x =? 0)%float = false -> is_nan x = false -> is_infinity x = false ->
  exists s m e, Prim2SF x = S754_finite s m e.
Proof.
  intros Hz Hn Hi. pose proof (Prim2SF_cases x) as H.
  destruct (Prim2SF x) as [s|s| |s m e].
  - destruct H as (_ & H & _). congruence.
  - destruct H as (_ & _ & H). congruence.
  - destruct H as [H _]. congruence.
  - eauto.
Qed.

Lemma zero_shape (x : float) :
  (x =? 0)%float = true -> x = 0%float \/ x = (-0)%float.
Proof.
  intros Hz. pose proof (Prim2SF_cases x) as H.
  pose proof (SF2Prim_Prim2SF x) as R.
  destruct (Prim2SF x) as [s|s| |s m e].
  - destruct s; [right|left]; now rewrite <- R.
  - destruct H as (_ & H & _). congruence.
  - destruct H as [_ H]. congruence.
  - destruct H as (_ & H & _). congruence.
Qed.

Lemma regular_Prim2SF (x : float) :
  is_nan x = false -> is_infinity x = false -> regular (Prim2SF x) = true.
Proof.
  intros Hn Hi. pose proof (Prim2SF_cases x) as H.
  destruct (Prim2SF x) as [s|s| |s m e]; try reflexivity.
  - destruct H as (_ & _ & H). congruence.
  - destruct H as [H _]. congruence.
Qed.

Lemma is_nan_Prim2SF (x : float) :
  Prim2SF x <> S754_nan -> is_nan x = false.
Proof.
  intros Hx. pose proof (Prim2SF_cases x) as H.
  destruct (Prim2SF x) as [s|s| |s m e]; [| |congruence|]; apply H.
Qed.

Lemma Prim2SF_not_nan (x : float) :
  is_nan x = false -> Prim2SF x <> S754_nan.
Proof.
  intros Hn E. pose proof (Prim2SF_cases x) as H. rewrite E in H.
  destruct H as [H _]. congruence.
Qed.

Lemma new_location_zero (n : Z) : new_location n 0 = loc_Exact.
Proof. unfold new_location. destruct (Z.even n); reflexivity. Qed.

(** A finite number divided by itself: the quotient of the mantissas is
    exactly 2^53, with no remainder to round. *)
Lemma SFdiv_self (s : bool) (m : positive) (e : Z) :
  SF64div (S754_finite s m e) (S754_finite s m e) = Prim2SF 1.
Proof.
  unfold SF64div, SFdiv, SFdiv_core_binary.
  rewrite xorb_nilpotent, !Z.sub_diag.
  change (Z.min (fexp prec emax 0) 0) with (-53).
  change (0 - -53) with 53.
  cbv iota beta.
  assert (E : Z.div_eucl (Z.shiftl (Z.pos m) 53) (Z.pos m)
              = (9007199254740992, 0)).
  { rewrite Z.shiftl_mul_pow2 by lia.
    pose proof (Z.div_eucl_eq (Z.pos m * 2 ^ 53) (Z.pos m) ltac:(lia)) as H.
    pose proof (Z.mod_pos_bound (Z.pos m * 2 ^ 53) (Z.pos m) ltac:(lia)) as Hb.
    unfold Z.modulo in Hb.
    destruct (Z.div_eucl (Z.pos m * 2 ^ 53) (Z.pos m)) as [q r].
    assert (q = 2 ^ 53) by nia. assert (r = 0) by nia. subst. reflexivity. }
  rewrite E, new_location_zero. reflexivity.
Qed.

Lemma div_self (x : float) :
  (x =? 0)%float = false -> is_nan x = false -> is_infinity x = false ->
  (x / x)%float = 1%float.
Proof.
  intros Hz Hn Hi. destruct (finite_shape x Hz Hn Hi) as (s & m & e & E).
  apply Prim2SF_inj. rewrite div_spec, E. apply SFdiv_self.
Qed.

(** Rounding a mantissa that is not negative never gives NaN. *)
Lemma shr_1_nonneg (mrs : shr_record) :
  0 <= shr_m mrs -> 0 <= shr_m (shr_1 mrs).
Proof.
  destruct mrs as [m r s]. simpl.
  destruct m as [|p|p]; [| |lia]; intros _.
  - simpl. lia.
  - destruct p; simpl; lia.
Qed.

Lemma iter_pos_shr_1_nonneg (p : positive) : forall mrs,
  0 <= shr_m mrs -> 0 <= shr_m (SpecFloat.iter_pos shr_1 p mrs).
Proof.
  induction p as [p IH|p IH|]; intros mrs H; simpl.
  - apply IH, IH, shr_1_nonneg, H.
  - apply IH, IH, H.
  - apply shr_1_nonneg, H.
Qed.

Lemma shr_fexp_nonneg (m e : Z) (l : location) :
  0 <= m -> 0 <= shr_m (fst (shr_fexp prec emax m e l)).
Proof.
  intros H. unfold shr_fexp, shr.
  assert (H0 : 0 <= shr_m (shr_record_of_loc m l))
    by (destruct l as [|[| |]]; exact H).
  destruct (fexp prec emax (Zdigits2 m + e) - e); simpl; auto.
  now apply iter_pos_shr_1_nonneg.
Qed.

Lemma round_nearest_even_nonneg (m : Z) (l : location) :
  0 <= m -> 0 <= round_nearest_even m l.
Proof.
  intros H. unfold round_nearest_even.
  destruct l as [|[| |]]; try destruct (Z.even m); lia.
Qed.

Lemma binary_round_aux_not_nan (s : bool) (m e : Z) (l : location) :
  0 <= m -> binary_round_aux prec emax s m e l <> S754_nan.
Proof.
  intros H. unfold binary_round_aux.
  pose proof (shr_fexp_nonneg m e l H) as H1.
  destruct (shr_fexp prec emax m e l) as [mrs' e']. simpl in H1.
  pose proof (shr_fexp_nonneg _ e' loc_Exact
                (round_nearest_even_nonneg _ (loc_of_shr_record mrs') H1)) as H2.
  destruct (shr_fexp prec emax
              (round_nearest_even (shr_m mrs') (loc_of_shr_record mrs'))
              e' loc_Exact) as [mrs'' e''].
  simpl in H2. destruct (shr_m mrs'') as [|p|p]; [discriminate| |lia].
  destruct (e'' <=? emax - prec); discriminate.
Qed.

Lemma binary_normalize_not_nan (m e : Z) (sz : bool) :
  binary_normalize prec emax m e sz <> S754_nan.
Proof.
  unfold binary_normalize, binary_round.
  destruct m as [|p|p]; [discriminate| |];
    match goal with
    | |- context [shl_align ?a ?b ?c] => destruct (shl_align a b c)
    end;
    apply binary_round_aux_not_nan; lia.
Qed.

Lemma SFsub_not_nan (x y : spec_float) :
  regular x = true -> regular y = true -> SF64sub x y <> S754_nan.
Proof.
  destruct x as [sx|sx| |sx mx ex]; try discriminate;
  destruct y as [sy|sy| |sy my ey]; try discriminate; intros _ _.
  - destruct sx, sy; discriminate.
  - apply binary_normalize_not_nan.
Qed.

Lemma SFdiv_not_nan (x : spec_float) (sy : bool) (my : positive) (ey : Z) :
  x <> S754_nan -> SF64div x (S754_finite sy my ey) <> S754_nan.
Proof.
  destruct x as [sx|sx| |sx mx ex]; intros H; try discriminate; [congruence|].
  unfold SF64div, SFdiv, SFdiv_core_binary; cbv iota beta zeta.
  set (m' := match _ with Z.pos _ => _ | 0 => Z.pos mx | Z.neg _ => 0 end).
  assert (Hm : 0 <= m').
  { subst m'. destruct (ex - ey - _); try lia. apply Z.shiftl_nonneg. lia. }
  pose proof (Z.div_eucl_eq m' (Z.pos my) ltac:(lia)) as Hq.
  pose proof (Z.mod_pos_bound m' (Z.pos my) ltac:(lia)) as Hb.
  unfold Z.modulo in Hb.
  destruct (Z.div_eucl m' (Z.pos my)) as [q r].
  apply binary_round_aux_not_nan. nia.
Qed.

Lemma SFmul_not_nan (x : spec_float) (sy : bool) (my : positive) (ey : Z) :
  x <> S754_nan -> SF64mul x (S754_finite sy my ey) <> S754_nan.
Proof.
  destruct x as [sx|sx| |sx mx ex]; intros H; try discriminate; [congruence|].
  unfold SF64mul, SFmul; cbv iota beta.
  apply binary_round_aux_not_nan. lia.
Qed.

(** The three operations of the ratio engine on floats. *)
Lemma sub_not_nan (a b : float) :
  is_nan a = false -> is_infinity a = false ->
  is_nan b = false -> is_infinity b = false ->
  is_nan (a - b)%float = false.
Proof.
  intros Ha Ha' Hb Hb'. apply is_nan_Prim2SF. rewrite sub_spec.
  apply SFsub_not_nan; now apply regular_Prim2SF.
Qed.

Lemma div_not_nan (x d : float) :
  is_nan x = false ->
  (d =? 0)%float = false -> is_nan d = false -> is_infinity d = false ->
  is_nan (x / d)%float = false.
Proof.
  intros Hx Hz Hn Hi. destruct (finite_shape d Hz Hn Hi) as (s & m & e & E).
  apply is_nan_Prim2SF. rewrite div_spec, E.
  now apply SFdiv_not_nan, Prim2SF_not_nan.
Qed.

Lemma mul_100_not_nan (x : float) :
  is_nan x = false -> is_nan (x * 100)%float = false.
Proof.
  intros Hx. apply is_nan_Prim2SF. rewrite mul_spec.
  change (Prim2SF 100) with (S754_finite false 7036874417766400 (-46)).
  now apply SFmul_not_nan, Prim2SF_not_nan.
Qed.

End Float64.

(* ================================================================== *)
(** * Properties of the ratio engine *)

(** The guards of the three divisions. *)
Lemma fillna0_not_nan (x : float) : is_nan (fillna0 x) = false.
Proof. unfold fillna0. destruct (is_nan x) eqn:E; [reflexivity|exact E]. Qed.

Lemma fillna0_not_inf (x : float) :
  is_infinity x = false -> is_infinity (fillna0 x) = false.
Proof. unfold fillna0. destruct (is_nan x); [reflexivity|trivial]. Qed.

Lemma replace0_guard (x : float) :
  is_nan x = false ->
  (replace0 x =? 0) = false /\ is_nan (replace0 x) = false.
Proof.
  unfold replace0. intros Hn.
  destruct (x =? 0) eqn:E; split; first [reflexivity|assumption].
Qed.

Lemma replace0_not_inf (x : float) :
  is_infinity x = false -> is_infinity (replace0 x) = false.
Proof. unfold replace0. destruct (x =? 0); [reflexivity|trivial]. Qed.

Lemma divisor_guard (x : float) :
  is_nan x = false ->
  (divisor x =? 0) = false /\ is_nan (divisor x) = false.
Proof.
  unfold divisor, neq0. intros Hn.
  destruct (x =? 0) eqn:E; split; first [reflexivity|assumption].
Qed.

Lemma divisor_not_inf (x : float) :
  is_infinity x = false -> is_infinity (divisor x) = false.
Proof. unfold divisor. destruct (neq0 x); [trivial|reflexivity]. Qed.

(** A quotient of the engine, times 100, is a number when the dividend
    is one and the divisor is guarded and finite. *)
Lemma percent_not_nan (x d : float) :
  is_nan x = false ->
  (d =? 0) = false -> is_nan d = false -> is_infinity d = false ->
  is_nan (x / d * 100) = false.
Proof. intros. now apply mul_100_not_nan, div_not_nan. Qed.

Section RatioEngineFacts.
Variable fold : N -> N.

(** Cleaning the numbers does not change which rows a label selects. *)
Lemma rows_matching_coerce (pat : string) (df : list LineItem) :
  rows_matching fold pat (map coerce df) = map coerce (rows_matching fold pat df).
Proof.
  unfold rows_matching.
  induction df as [|r df IH]; simpl; [reflexivity|].
  destruct (Str.str_contains fold pat (chi_tieu r)); simpl; now rewrite IH.
Qed.

Lemma rows_matching_none (pat : string) (df : list LineItem) :
  Forall (fun r => Str.str_contains fold pat (chi_tieu r) = false) df ->
  rows_matching fold pat df = [].
Proof.
  unfold rows_matching.
  induction 1 as [|r df Hr _ IH]; simpl; [reflexivity|].
  now rewrite Hr.
Qed.

(** The first selected row is the first row of the table that matches. *)
Lemma rows_matching_first (pat : string) (before after : list LineItem)
    (r : LineItem) :
  Forall (fun r => Str.str_contains fold pat (chi_tieu r) = false) before ->
  Str.str_contains fold pat (chi_tieu r) = true ->
  rows_matching fold pat (before ++ r :: after)
  = r :: rows_matching fold pat after.
Proof.
  intros Hb Hr. unfold rows_matching.
  rewrite filter_app. fold (rows_matching fold pat before).
  rewrite (rows_matching_none _ _ Hb). simpl. now rewrite Hr.
Qed.

Lemma str_accessor_accepts (df : list LineItem) :
  df = [] \/ Exists (fun r => chi_tieu r <> None) df ->
  str_accessor (map chi_tieu df) = Ok tt.
Proof.
  intros [->|H]; [reflexivity|].
  unfold str_accessor. destruct df as [|r df]; [inversion H|]. cbn [map].
  assert (Hex : existsb (fun l => match l with Some _ => true | None => false end)
                  (chi_tieu r :: map chi_tieu df) = true).
  { apply Exists_exists in H. destruct H as (x & Hx & Hs).
    apply existsb_exists. exists (chi_tieu x). split.
    - change (chi_tieu r :: map chi_tieu df) with (map chi_tieu (r :: df)).
      now apply in_map.
    - destruct (chi_tieu x); [reflexivity|congruence]. }
  now rewrite Hex.
Qed.

Lemma str_accessor_refuses (df : list LineItem) :
  df <> [] -> Forall (fun r => chi_tieu r = None) df ->
  str_accessor (map chi_tieu df) = Raise (mkExn AttributeError str_accessor_msg).
Proof.
  intros Hne Hall.
  assert (Hex : existsb (fun l => match l with Some _ => true | None => false end)
                  (map chi_tieu df) = false).
  { clear Hne. induction Hall as [|x l Hx _ IH]; [reflexivity|].
    simpl. now rewrite Hx. }
  unfold str_accessor. destruct df as [|r df]; [congruence|].
  cbn [map] in *. now rewrite Hex.
Qed.

Lemma str_accessor_cases (df : list LineItem) :
  (df = [] \/ Exists (fun r => chi_tieu r <> None) df)
  \/ (df <> [] /\ Forall (fun r => chi_tieu r = None) df).
Proof.
  destruct df as [|r df]; [left; now left|].
  assert (H : Forall (fun r => chi_tieu r = None) (r :: df)
              \/ Exists (fun r => chi_tieu r <> None) (r :: df)).
  { induction (r :: df) as [|x l [IH|IH]].
    - left. constructor.
    - destruct (chi_tieu x) eqn:E.
      + right. left. congruence.
      + left. now constructor.
    - right. now right. }
  destruct H as [H|H]; [right; split; [discriminate|exact H]|left; now right].
Qed.

Lemma chi_tieu_map_coerce (df : list LineItem) :
  map chi_tieu (map coerce df) = map chi_tieu df.
Proof. rewrite map_map. reflexivity. Qed.

(** The accessor accepts a column of which a label is matched. *)
Lemma str_accessor_matched (pat : string) (df : list LineItem)
    (r0 : LineItem) (rest : list LineItem) :
  rows_matching fold pat df = r0 :: rest ->
  str_accessor (map chi_tieu df) = Ok tt.
Proof.
  intros E.
  assert (H : In r0 (rows_matching fold pat df)) by (rewrite E; now left).
  unfold rows_matching in H. apply filter_In in H. destruct H as [Hin Hm].
  unfold str_accessor. destruct df as [|r df]; [reflexivity|].
  cbn [map].
  assert (Hex : existsb (fun l => match l with Some _ => true | None => false end)
                  (chi_tieu r :: map chi_tieu df) = true).
  { apply existsb_exists. exists (chi_tieu r0). split.
    - change (chi_tieu r :: map chi_tieu df) with (map chi_tieu (r :: df)).
      now apply in_map.
    - destruct (chi_tieu r0); [reflexivity|discriminate]. }
  now rewrite Hex.
Qed.

(** The table of a successful processing. *)
Lemma process_financial_data_matched (df : list LineItem)
    (r0 : LineItem) (rest : list LineItem) :
  rows_matching fold TONG_CONG_TAI_SAN (map coerce df) = r0 :: rest ->
  process_financial_data fold df
  = Ok (map (enrich (divisor (nam_truoc r0)) (divisor (nam_sau r0)))
          (map coerce df)).
Proof.
  intros E. unfold process_financial_data.
  rewrite (str_accessor_matched _ _ _ _ E). cbn [bind]. now rewrite E.
Qed.

Lemma process_financial_data_Ok (df : list LineItem) (t : list EnrichedRow) :
  process_financial_data fold df = Ok t ->
  exists r0 rest,
    rows_matching fold TONG_CONG_TAI_SAN (map coerce df) = r0 :: rest
    /\ t = map (enrich (divisor (nam_truoc r0)) (divisor (nam_sau r0)))
             (map coerce df).
Proof.
  unfold process_financial_data.
  destruct (str_accessor (map chi_tieu (map coerce df))); [|discriminate].
  cbn [bind].
  destruct (rows_matching fold TONG_CONG_TAI_SAN (map coerce df))
    as [|r0 rest]; [discriminate|].
  intros [= <-]. eauto.
Qed.

End RatioEngineFacts.

(** The model on the table of the end-to-end example: growth 100 and
    shares 100 / 100 for the total row, both ratios 2 and a delta of 0. *)
Example balance_sheet_processed :
  (df_processed <- process_financial_data Str.vn_lower balance_sheet ;;
   cr <- current_ratio Str.vn_lower df_processed ;;
   Ok (hd_error df_processed, cr))
  = Ok (Some (mkEnrichedRow (mkLineItem (Some TONG_CONG_TAI_SAN) 100 200)
                100 100 100),
        mkCurrentRatio (Num 2) (Num 2) (Num 0)).
Proof. vm_compute. reflexivity. Qed.


Lemma current_ratio_block_ok (fold : N -> N) (t : list EnrichedRow)
    (cr : CurrentRatio) :
  current_ratio fold t = Ok cr ->
  exists shown, current_ratio_block fold t = Ok (cr, shown).
Proof.
  intros H. unfold current_ratio_block. rewrite H. simpl. eexists. reflexivity.
Qed.

(** C1 (as amended): the three metrics are assigned under one test on both
    liabilities.  With the Current-Assets and Current-Liabilities rows
    present, a liability of exactly 0 in the current period leaves the
    prior ratio, the current ratio and the delta all at "N/A", whatever
    the liability of the prior period; the three are numbers exactly
    when the liabilities of both periods are nonzero. *)
Theorem current_ratio_needs_both_liabilities (fold : N -> N)
    (t : list EnrichedRow) (tsnh_n tsnh_n_1 no_n no_n_1 : float) :
  first_value fold TAI_SAN_NGAN_HAN nam_sau t = Ok tsnh_n ->
  first_value fold TAI_SAN_NGAN_HAN nam_truoc t = Ok tsnh_n_1 ->
  first_value fold NO_NGAN_HAN nam_sau t = Ok no_n ->
  first_value fold NO_NGAN_HAN nam_truoc t = Ok no_n_1 ->
  ((no_n =? 0) = true ->
   exists shown,
     current_ratio_block fold t = Ok (mkCurrentRatio NA NA NA, shown))
  /\ ((no_n =? 0) = false -> (no_n_1 =? 0) = false ->
      exists shown,
        current_ratio_block fold t
        = Ok (mkCurrentRatio (Num (tsnh_n_1 / no_n_1)) (Num (tsnh_n / no_n))
                (Num (tsnh_n / no_n - tsnh_n_1 / no_n_1)), shown))
  /\ ((no_n_1 =? 0) = true ->
      exists shown,
        current_ratio_block fold t = Ok (mkCurrentRatio NA NA NA, shown)).
Proof.
  intros Ha Ha1 Hl Hl1.
  assert (Hcr : current_ratio fold t
                = if neq0 no_n && neq0 no_n_1
                  then Ok (mkCurrentRatio (Num (tsnh_n_1 / no_n_1))
                             (Num (tsnh_n / no_n))
                             (Num (tsnh_n / no_n - tsnh_n_1 / no_n_1)))
                  else Ok (mkCurrentRatio NA NA NA)).
  { unfold current_ratio. rewrite Ha, Ha1, Hl, Hl1. reflexivity. }
  unfold neq0 in Hcr.
  repeat split.
  - intros Hz. rewrite Hz in Hcr. now apply current_ratio_block_ok.
  - intros Hz Hz1. rewrite Hz, Hz1 in Hcr. now apply current_ratio_block_ok.
  - intros Hz1. rewrite Hz1 in Hcr. rewrite andb_false_r in Hcr.
    now apply current_ratio_block_ok.
Qed.

Lemma current_ratio_needs_both_liabilities_witness :
  exists t,
    process_financial_data Str.vn_lower no_current_liability = Ok t
    /\ exists shown,
         current_ratio_block Str.vn_lower t
         = Ok (mkCurrentRatio NA NA NA, shown).
Proof.
  eexists. split; [vm_compute; reflexivity|].
  refine (proj1 (current_ratio_needs_both_liabilities
                   Str.vn_lower _ 80 50 0 25 _ _ _ _) _); reflexivity.
Defined.

(** C1, as the specification states it, fails on the code: with a
    current-period liability of 0 and a prior-period liability of 25, the
    prior ratio is "N/A", not the number 50 / 25. *)
Lemma prior_ratio_not_independent :
  exists t shown,
    process_financial_data Str.vn_lower no_current_liability = Ok t
    /\ first_value Str.vn_lower NO_NGAN_HAN nam_sau t = Ok 0
    /\ first_value Str.vn_lower NO_NGAN_HAN nam_truoc t = Ok 25
    /\ first_value Str.vn_lower TAI_SAN_NGAN_HAN nam_truoc t = Ok 50
    /\ current_ratio_block Str.vn_lower t
       = Ok (mkCurrentRatio NA NA NA, shown)
    /\ forall x, thanh_toan_hien_hanh_N_1 (mkCurrentRatio NA NA NA) <> Num x.
Proof.
  do 2 eexists. split; [vm_compute; reflexivity|].
  repeat split; try (vm_compute; reflexivity).
  intros x. discriminate.
Qed.

(** Processing a table none of whose labels contains the Total-Assets
    text. *)
Lemma process_financial_data_unmatched (fold : N -> N) (df : list LineItem) :
  Forall (fun r => Str.str_contains fold TONG_CONG_TAI_SAN (chi_tieu r) = false) df ->
  (df = [] \/ Exists (fun r => chi_tieu r <> None) df ->
   process_financial_data fold df = Raise (mkExn ValueError missing_total_msg))
  /\ (df <> [] /\ Forall (fun r => chi_tieu r = None) df ->
      process_financial_data fold df
      = Raise (mkExn AttributeError str_accessor_msg)).
Proof.
  intros Hnone. unfold process_financial_data.
  rewrite chi_tieu_map_coerce, rows_matching_coerce,
    (rows_matching_none _ _ _ Hnone).
  split.
  - intros H. now rewrite (str_accessor_accepts _ H).
  - intros [Hne Hall]. now rewrite (str_accessor_refuses _ Hne Hall).
Qed.

(** C2 (as amended): a table with no row whose label contains the
    Total-Assets text makes [process_financial_data] raise, so no
    processed table comes out of it; the pass of the script shows no
    table, leaves the chat history as one assistant turn (a request for
    a new file) and the cached context as [None].  The exception is the
    ValueError of the missing row, and the turn the data-error message,
    when the table has no rows or a label of it is a string; when the
    table has rows and no label is a string, the exception is the
    AttributeError of the [.str] accessor, and the turn the message of
    the generic handler. *)
Theorem missing_total_assets_aborts (fold : N -> N)
    (generate_content : string -> string -> Contents -> result string)
    (data_for_ai : list EnrichedRow -> CurrentRatio -> string)
    (df : list LineItem) (st : Session) (inp : Inputs) :
  Forall (fun r => Str.str_contains fold TONG_CONG_TAI_SAN (chi_tieu r) = false) df ->
  uploaded_file inp = Some (Ok df) ->
  exists e turn shown,
    process_financial_data fold df = Raise e
    /\ run_script fold generate_content data_for_ai st inp
       = Ok (mkSession [mkChatTurn "assistant" turn] None, shown)
    /\ forallb not_dataframe shown = true
    /\ (df = [] \/ Exists (fun r => chi_tieu r <> None) df ->
        e = mkExn ValueError missing_total_msg
        /\ turn = "Lỗi dữ liệu. Vui lòng tải file mới: " ++ missing_total_msg)
    /\ (df <> [] /\ Forall (fun r => chi_tieu r = None) df ->
        e = mkExn AttributeError str_accessor_msg
        /\ turn = "Lỗi xử lý file. Vui lòng tải file mới: " ++ str_accessor_msg).
Proof.
  intros Hnone Hfile.
  destruct (process_financial_data_unmatched fold df Hnone) as [Hv Ha].
  unfold run_script, upload_pass, upload_body. rewrite Hfile. cbn [bind].
  destruct (str_accessor_cases df) as [Hc|Hc].
  - rewrite (Hv Hc). cbn.
    exists (mkExn ValueError missing_total_msg).
    destruct (truthy (api_key inp)); do 2 eexists;
      (split; [reflexivity|]); (split; [reflexivity|]);
      (split; [reflexivity|]); (split; [intros _; split; reflexivity|]);
      intros [Hne Hall]; exfalso; (destruct Hc as [->|Hex]; [congruence|]);
      apply Exists_exists in Hex; destruct Hex as (x & Hx & Hs);
      rewrite Forall_forall in Hall; exact (Hs (Hall _ Hx)).
  - rewrite (Ha Hc). cbn.
    exists (mkExn AttributeError str_accessor_msg).
    destruct (truthy (api_key inp)); do 2 eexists;
      (split; [reflexivity|]); (split; [reflexivity|]);
      (split; [reflexivity|]); (split; [|intros _; split; reflexivity]);
      intros Hc'; exfalso; destruct Hc as [Hne Hall];
      (destruct Hc' as [->|Hex]; [congruence|]);
      apply Exists_exists in Hex; destruct Hex as (x & Hx & Hs);
      rewrite Forall_forall in Hall; exact (Hs (Hall _ Hx)).
Qed.

Lemma missing_total_assets_aborts_witness :
  exists shown,
    process_financial_data Str.vn_lower no_total
    = Raise (mkExn ValueError missing_total_msg)
    /\ run_script Str.vn_lower (fun _ _ _ => Ok "ok") (fun _ _ => "data")
         initial_session (mkInputs (Some (Ok no_total)) (Some "key") false None)
       = Ok (mkSession
               [mkChatTurn "assistant"
                  ("Lỗi dữ liệu. Vui lòng tải file mới: " ++ missing_total_msg)]
               None,
             shown)
    /\ forallb not_dataframe shown = true.
Proof.
  destruct (missing_total_assets_aborts Str.vn_lower
              (fun _ _ _ => Ok "ok") (fun _ _ => "data") no_total
              initial_session
              (mkInputs (Some (Ok no_total)) (Some "key") false None))
    as (e & turn & shown & He & Hrun & Hshown & Hv & _).
  - repeat (constructor; [vm_compute; reflexivity|]). constructor.
  - reflexivity.
  - destruct Hv as [-> ->].
    + right. left. discriminate.
    + exists shown. auto.
Defined.

(** C2, as the specification states it, fails on the code: no label of
    [numeric_labels] contains the Total-Assets text, and the computation
    does not fail with the missing-row ValueError but with the
    AttributeError of the [.str] accessor, which the generic handler of
    the script reports. *)
Lemma numeric_labels_raise_attribute_error :
  Forall (fun r => Str.str_contains Str.vn_lower TONG_CONG_TAI_SAN (chi_tieu r)
                   = false) numeric_labels
  /\ process_financial_data Str.vn_lower numeric_labels
     = Raise (mkExn AttributeError str_accessor_msg)
  /\ process_financial_data Str.vn_lower numeric_labels
     <> Raise (mkExn ValueError missing_total_msg)
  /\ fst_session
       (run_script Str.vn_lower (fun _ _ _ => Ok "ok") (fun _ _ => "data")
          initial_session
          (mkInputs (Some (Ok numeric_labels)) (Some "key") false None))
     = Some (mkSession
               [mkChatTurn "assistant"
                  ("Lỗi xử lý file. Vui lòng tải file mới: " ++ str_accessor_msg)]
               None).
Proof.
  split; [repeat constructor|].
  split; [vm_compute; reflexivity|].
  split; [vm_compute; discriminate|].
  vm_compute. reflexivity.
Qed.

(** C9: the rows after the first one whose label contains the
    Total-Assets text play no part.  Whatever follows it (further rows
    with that text or not), the computation succeeds and every share is
    taken over the values of that first row. *)
Theorem first_total_row_gives_divisors (fold : N -> N)
    (before after : list LineItem) (r : LineItem) :
  Forall (fun r => Str.str_contains fold TONG_CONG_TAI_SAN (chi_tieu r) = false)
    before ->
  Str.str_contains fold TONG_CONG_TAI_SAN (chi_tieu r) = true ->
  process_financial_data fold (before ++ r :: after)
  = Ok (map (enrich (divisor (fillna0 (nam_truoc r)))
                    (divisor (fillna0 (nam_sau r))))
            (map coerce (before ++ r :: after))).
Proof.
  intros Hb Hr.
  apply (process_financial_data_matched fold _ (coerce r)
           (map coerce (rows_matching fold TONG_CONG_TAI_SAN after))).
  now rewrite rows_matching_coerce, (rows_matching_first _ _ _ _ _ Hb Hr).
Qed.

Lemma first_total_row_gives_divisors_witness :
  process_financial_data Str.vn_lower two_totals
  = Ok (map (enrich (divisor (fillna0 100)) (divisor (fillna0 200)))
            (map coerce two_totals)).
Proof.
  apply (first_total_row_gives_divisors Str.vn_lower
           [mkLineItem (Some "Tiền") 10 20]
           [mkLineItem (Some "TỔNG CỘNG TÀI SẢN (hợp nhất)") 400 500]
           (mkLineItem (Some "Tổng cộng tài sản") 100 200)).
  - repeat (constructor; [vm_compute; reflexivity|]). constructor.
  - vm_compute; reflexivity.
Defined.

(* ================================================================== *)
(** * Integer columns: the growth *)


Lemma filter_map_comm {A B} (f : B -> bool) (g : A -> B) (l : list A) :
  filter f (map g l) = map g (filter (fun x => f (g x)) l).
Proof.
  induction l as [|x l IH]; simpl; [reflexivity|].
  destruct (f (g x)); simpl; now rewrite IH.
Qed.

(** On a table of two float64 columns the computation with the dtypes is
    [process_financial_data]. *)
Lemma process_financial_data_typed_float64 (fold : N -> N)
    (df : list LineItem) :
  process_financial_data_typed fold (map float64_item df)
  = process_financial_data fold df.
Proof.
  destruct df as [|r df]; [reflexivity|].
  unfold process_financial_data_typed, process_financial_data.
  set (l := r :: df).
  assert (H1 : dtype_int64 (map t_nam_truoc (map float64_item l)) = false)
    by reflexivity.
  assert (H2 : dtype_int64 (map t_nam_sau (map float64_item l)) = false)
    by reflexivity.
  rewrite H1, H2. cbv zeta.
  assert (E : map (fun r0 => mkTypedItem (t_chi_tieu r0)
                               (clean false (t_nam_truoc r0))
                               (clean false (t_nam_sau r0)))
                (map float64_item l)
              = map float64_item (map coerce l))
    by (rewrite !map_map; reflexivity).
  rewrite E.
  assert (E' : map t_chi_tieu (map float64_item (map coerce l))
               = map chi_tieu (map coerce l))
    by (rewrite (map_map float64_item); reflexivity).
  rewrite E'.
  destruct (str_accessor (map chi_tieu (map coerce l))); [|reflexivity].
  cbn [bind]. rewrite filter_map_comm.
  change (filter (fun x => Str.str_contains fold TONG_CONG_TAI_SAN
                             (t_chi_tieu (float64_item x))) (map coerce l))
    with (rows_matching fold TONG_CONG_TAI_SAN (map coerce l)).
  destruct (rows_matching fold TONG_CONG_TAI_SAN (map coerce l)) as [|r0 rest];
    [reflexivity|].
  cbn [map]. f_equal. rewrite map_map.
  apply map_ext. intros [lbl x y]. reflexivity.
Qed.





(* ================================================================== *)
(** * Properties of the chat request *)

Lemma history_turns_app (l1 l2 : list ChatTurn) :
  history_turns (l1 ++ l2) = (history_turns l1 ++ history_turns l2)%list.
Proof.
  induction l1 as [|m l1 IH]; simpl; [reflexivity|].
  destruct (history_turn m); simpl; now rewrite IH.
Qed.

Lemma history_turns_length (l : list ChatTurn) :
  (List.length (history_turns l) <= List.length l)%nat.
Proof.
  induction l as [|m l IH]; simpl; [lia|].
  destruct (history_turn m); simpl; lia.
Qed.

(** The request is the filtered history followed by the one combined turn. *)
Lemma build_contents_snoc (history : list ChatTurn) (newest : ChatTurn)
    (context_data : option string) (prompt : string) :
  build_contents (history ++ [newest]) context_data prompt
  = (history_turns history
     ++ [mkContent "user" [mkPart (context_prefix context_data ++ prompt)]])%list.
Proof. unfold build_contents. now rewrite removelast_last. Qed.

Lemma history_turn_dropped (m : ChatTurn) :
  Str.startswith (content m) upload_prefix = true
  \/ Str.startswith (content m) uploaded_prefix = true ->
  history_turn m = None.
Proof.
  unfold history_turn. intros [H|H]; rewrite H;
    destruct (gemini_role m); simpl; try reflexivity.
  now rewrite andb_false_r.
Qed.

Lemma history_turn_kept (m : ChatTurn) (r : string) :
  gemini_role m = Some r ->
  Str.startswith (content m) upload_prefix = false ->
  Str.startswith (content m) uploaded_prefix = false ->
  history_turn m = Some (mkContent r [mkPart (content m)]).
Proof. unfold history_turn. intros -> -> ->. reflexivity. Qed.

Lemma history_turn_text (m : ChatTurn) (c : Content) :
  history_turn m = Some c ->
  parts c = [mkPart (content m)]
  /\ Str.startswith (content m) upload_prefix = false
  /\ Str.startswith (content m) uploaded_prefix = false.
Proof.
  unfold history_turn. destruct (gemini_role m); [|discriminate].
  destruct (Str.startswith (content m) upload_prefix);
    destruct (Str.startswith (content m) uploaded_prefix);
    simpl; try discriminate.
  intros [= <-]. auto.
Qed.

(** The combined turn begins with the instruction header. *)
Lemma context_prefix_head (context_data : option string) (prompt : string) :
  exists rest, context_prefix context_data ++ prompt = String "B" rest.
Proof. unfold context_prefix. simpl. eexists. reflexivity. Qed.

Lemma string_app_assoc (s1 s2 s3 : string) :
  (s1 ++ s2) ++ s3 = s1 ++ (s2 ++ s3).
Proof. induction s1 as [|c s1 IH]; simpl; [reflexivity|now rewrite IH]. Qed.

(** The text of the combined turn, written out: the instruction, the
    cached context between its two rules, the request to answer, and the
    prompt. *)
Lemma combined_turn_text (context_data : option string) (prompt : string) :
  context_prefix context_data ++ prompt
  = "Bạn là một chuyên gia phân tích tài chính. Hãy trả lời các câu hỏi của người dùng "
    ++ "dựa trên dữ liệu tài chính đính kèm sau đây (chỉ dùng dữ liệu này để trả lời): "
    ++ Str.nl ++ Str.nl
    ++ "--- DỮ LIỆU TÀI CHÍNH CƠ SỞ ---" ++ Str.nl
    ++ match context_data with
       | Some data => data
       | None => "None"
       end
    ++ Str.nl ++ "---------------------------" ++ Str.nl
    ++ "Bây giờ, hãy trả lời câu hỏi sau của người dùng: "
    ++ prompt.
Proof.
  unfold context_prefix, fmt. rewrite !string_app_assoc. reflexivity.
Qed.

(** C3: with the session history [user a; assistant b], neither turn a
    bootstrap message, and the pending prompt c, the request is
    [user a; model b; user t], where the text t is the instruction
    header, the cached context between its two rules, the request to
    answer and then c: the context is inside the one trailing user turn.
    For every history and every context the combined turn, with this
    text, is the last element of the request and the only one added to
    the filtered history: the prompt is not sent a second time. *)
Theorem context_fused_into_last_turn (a b c data : string) :
  Str.startswith a upload_prefix = false ->
  Str.startswith a uploaded_prefix = false ->
  Str.startswith b upload_prefix = false ->
  Str.startswith b uploaded_prefix = false ->
  build_contents
    [mkChatTurn "user" a; mkChatTurn "assistant" b; mkChatTurn "user" c]
    (Some data) c
  = [mkContent "user" [mkPart a];
     mkContent "model" [mkPart b];
     mkContent "user"
       [mkPart
          ("Bạn là một chuyên gia phân tích tài chính. Hãy trả lời các câu hỏi của người dùng "
           ++ "dựa trên dữ liệu tài chính đính kèm sau đây (chỉ dùng dữ liệu này để trả lời): "
           ++ Str.nl ++ Str.nl
           ++ "--- DỮ LIỆU TÀI CHÍNH CƠ SỞ ---" ++ Str.nl
           ++ data ++ Str.nl
           ++ "---------------------------" ++ Str.nl
           ++ "Bây giờ, hãy trả lời câu hỏi sau của người dùng: "
           ++ c)]]
  /\ forall (messages : list ChatTurn) (context_data : option string),
       let combined :=
         mkContent "user"
           [mkPart
              ("Bạn là một chuyên gia phân tích tài chính. Hãy trả lời các câu hỏi của người dùng "
               ++ "dựa trên dữ liệu tài chính đính kèm sau đây (chỉ dùng dữ liệu này để trả lời): "
               ++ Str.nl ++ Str.nl
               ++ "--- DỮ LIỆU TÀI CHÍNH CƠ SỞ ---" ++ Str.nl
               ++ match context_data with
                  | Some data => data
                  | None => "None"
                  end
               ++ Str.nl ++ "---------------------------" ++ Str.nl
               ++ "Bây giờ, hãy trả lời câu hỏi sau của người dùng: "
               ++ c)] in
       build_contents messages context_data c
       = (history_turns (removelast messages) ++ [combined])%list
       /\ last (build_contents messages context_data c) (mkContent "user" [])
          = combined
       /\ (List.length (build_contents messages context_data c)
           <= List.length (removelast messages) + 1)%nat.
Proof.
  intros Ha1 Ha2 Hb1 Hb2. split.
  - unfold build_contents. simpl removelast. simpl history_turns.
    rewrite (history_turn_kept (mkChatTurn "user" a) "user");
      [|reflexivity|exact Ha1|exact Ha2].
    rewrite (history_turn_kept (mkChatTurn "assistant" b) "model");
      [|reflexivity|exact Hb1|exact Hb2].
    rewrite (combined_turn_text (Some data) c). reflexivity.
  - intros messages context_data combined. subst combined.
    rewrite <- (combined_turn_text context_data c).
    unfold build_contents. repeat split.
    + apply last_last.
    + rewrite length_app. simpl.
      pose proof (history_turns_length (removelast messages)). lia.
Qed.

Lemma context_fused_into_last_turn_witness :
  build_contents
    [mkChatTurn "user" "a"; mkChatTurn "assistant" "b"; mkChatTurn "user" "c"]
    (Some "data") "c"
  = [mkContent "user" [mkPart "a"];
     mkContent "model" [mkPart "b"];
     mkContent "user"
       [mkPart
          ("Bạn là một chuyên gia phân tích tài chính. Hãy trả lời các câu hỏi của người dùng "
           ++ "dựa trên dữ liệu tài chính đính kèm sau đây (chỉ dùng dữ liệu này để trả lời): "
           ++ Str.nl ++ Str.nl
           ++ "--- DỮ LIỆU TÀI CHÍNH CƠ SỞ ---" ++ Str.nl
           ++ "data" ++ Str.nl
           ++ "---------------------------" ++ Str.nl
           ++ "Bây giờ, hãy trả lời câu hỏi sau của người dùng: "
           ++ "c")]].
Proof.
  refine (proj1 (context_fused_into_last_turn "a" "b" "c" "data" _ _ _ _));
    reflexivity.
Defined.

(** C5: whatever the session history, no turn of the request carries
    either of the two bootstrap messages as its text. *)
Theorem placeholders_never_sent (messages : list ChatTurn)
    (context_data : option string) (prompt : string) :
  Forall (fun c =>
            Forall (fun p => text p <> upload_prompt /\ text p <> uploaded_prompt)
              (parts c))
    (build_contents messages context_data prompt).
Proof.
  unfold build_contents. apply Forall_app. split.
  - induction (removelast messages) as [|m l IH]; simpl; [constructor|].
    destruct (history_turn m) as [c|] eqn:Hc; [|exact IH].
    constructor; [|exact IH].
    destruct (history_turn_text _ _ Hc) as (-> & H1 & H2).
    constructor; [|constructor]. simpl. split; intros E; rewrite E in *.
    + vm_compute in H1. discriminate.
    + vm_compute in H2. discriminate.
  - destruct (context_prefix_head context_data prompt) as [rest ->].
    constructor; [|constructor]. constructor; [|constructor]. simpl.
    split; discriminate.
Qed.

(** C10: the exclusion looks at the beginning of the content only.  A
    turn of the history whose content begins with either text is left
    out of the request, a question of the user included; a turn of a
    known role whose content begins with neither is sent, also when the
    text occurs further on in it. *)
Theorem placeholder_exclusion_is_prefix_match (before after : list ChatTurn)
    (m newest : ChatTurn) (context_data : option string) (prompt : string) :
  (Str.startswith (content m) upload_prefix = true
   \/ Str.startswith (content m) uploaded_prefix = true ->
   build_contents (before ++ m :: after ++ [newest]) context_data prompt
   = build_contents (before ++ after ++ [newest]) context_data prompt)
  /\ (forall r,
        gemini_role m = Some r ->
        Str.startswith (content m) upload_prefix = false ->
        Str.startswith (content m) uploaded_prefix = false ->
        build_contents (before ++ m :: after ++ [newest]) context_data prompt
        = (history_turns before
           ++ mkContent r [mkPart (content m)]
           :: history_turns after
           ++ [mkContent "user" [mkPart (context_prefix context_data ++ prompt)]])%list).
Proof.
  assert (E1 : (before ++ m :: after ++ [newest]
                = (before ++ m :: after) ++ [newest])%list)
    by now rewrite <- app_assoc.
  assert (E2 : (before ++ after ++ [newest]
                = (before ++ after) ++ [newest])%list)
    by now rewrite app_assoc.
  rewrite E1, E2, !build_contents_snoc, !history_turns_app. simpl.
  split.
  - intros H. now rewrite (history_turn_dropped m H).
  - intros r Hr H1 H2. rewrite (history_turn_kept m r Hr H1 H2).
    now rewrite <- app_assoc.
Qed.

Lemma placeholder_exclusion_is_prefix_match_witness :
  build_contents
    ([mkChatTurn "assistant" uploaded_prompt]
     ++ question_with_prefix
     :: [question_with_quote] ++ [mkChatTurn "user" "c"])
    (Some "data") "c"
  = build_contents
      ([mkChatTurn "assistant" uploaded_prompt]
       ++ [question_with_quote] ++ [mkChatTurn "user" "c"])
      (Some "data") "c"
  /\ build_contents
       ([mkChatTurn "assistant" uploaded_prompt]
        ++ question_with_quote :: [] ++ [mkChatTurn "user" "c"])
       (Some "data") "c"
     = (history_turns [mkChatTurn "assistant" uploaded_prompt]
        ++ mkContent "user" [mkPart (content question_with_quote)]
        :: history_turns []
        ++ [mkContent "user" [mkPart (context_prefix (Some "data") ++ "c")]])%list.
Proof.
  split.
  - apply (proj1 (placeholder_exclusion_is_prefix_match
                    [mkChatTurn "assistant" uploaded_prompt]
                    [question_with_quote] question_with_prefix
                    (mkChatTurn "user" "c") (Some "data") "c")).
    left. reflexivity.
  - apply (proj2 (placeholder_exclusion_is_prefix_match
                    [mkChatTurn "assistant" uploaded_prompt]
                    [] question_with_quote
                    (mkChatTurn "user" "c") (Some "data") "c") "user");
      reflexivity.
Defined.

(** Every exception is an instance of [Exception]. *)
Lemma isinstance_Exception (e : exn) : isinstance e Exception = true.
Proof.
  unfold isinstance. destruct (exn_cls e); simpl;
    rewrite ?orb_true_r; reflexivity.
Qed.

Lemma get_ai_analysis_cases
    (generate_content : string -> string -> Contents -> result string)
    (data_for_ai api_key : string) :
  get_ai_analysis generate_content data_for_ai api_key
  = Ok match generate_content api_key model_name
               (Prompt (analysis_prompt data_for_ai)) with
       | Ok answer => answer
       | Raise e =>
           if isinstance e APIError then analysis_api_error e
           else analysis_unknown_error e
       end.
Proof.
  unfold get_ai_analysis, try_except.
  destruct (generate_content api_key model_name
              (Prompt (analysis_prompt data_for_ai))) as [answer|e];
    [reflexivity|].
  unfold handle. rewrite isinstance_Exception.
  destruct (isinstance e APIError); reflexivity.
Qed.

Lemma get_chat_response_cases
    (generate_content : string -> string -> Contents -> result string)
    (messages : list ChatTurn) (prompt : string)
    (context_data : option string) (api_key : string) :
  get_chat_response generate_content messages prompt context_data api_key
  = Ok match generate_content api_key model_name
               (Turns (build_contents messages context_data prompt)) with
       | Ok answer => answer
       | Raise e =>
           if isinstance e APIError then chat_api_error e
           else chat_unknown_error e
       end.
Proof.
  unfold get_chat_response, try_except.
  destruct (generate_content api_key model_name
              (Turns (build_contents messages context_data prompt)))
    as [answer|e]; [reflexivity|].
  unfold handle. rewrite isinstance_Exception.
  destruct (isinstance e APIError); reflexivity.
Qed.

(** C8: neither call raises.  Whatever the service does, the one-shot
    call and the chat call return a string: the answer of the service
    when it answers; the API diagnostic, with the text of the exception,
    when it raises an [APIError] or an instance of a class with
    [APIError] among its bases, such as [ClientError]; the catch-all
    diagnostic when it raises any other exception, a [ValueError] or an
    instance of a class with no bases named among them.  The two
    diagnostics of a call are never the same string. *)
Theorem ai_calls_never_raise
    (generate_content : string -> string -> Contents -> result string)
    (data_for_ai : string) (messages : list ChatTurn) (prompt : string)
    (context_data : option string) (api_key : string) :
  let one_shot := generate_content api_key model_name
                    (Prompt (analysis_prompt data_for_ai)) in
  let chat := generate_content api_key model_name
                (Turns (build_contents messages context_data prompt)) in
  let api_class c :=
    c = APIError \/ exists name bases, c = Other name bases /\ In APIError bases in
  let other_class c :=
    c = Exception \/ c = ValueError \/ c = IndexError \/ c = ZeroDivisionError
    \/ exists name, c = Other name [] in
  ((exists s, get_ai_analysis generate_content data_for_ai api_key = Ok s)
   /\ exists s,
        get_chat_response generate_content messages prompt context_data api_key
        = Ok s)
  /\ (forall answer,
        (one_shot = Ok answer ->
         get_ai_analysis generate_content data_for_ai api_key = Ok answer)
        /\ (chat = Ok answer ->
            get_chat_response generate_content messages prompt context_data
              api_key = Ok answer))
  /\ (forall e, api_class (exn_cls e) ->
        (one_shot = Raise e ->
         get_ai_analysis generate_content data_for_ai api_key
         = Ok (analysis_api_error e))
        /\ (chat = Raise e ->
            get_chat_response generate_content messages prompt context_data
              api_key = Ok (chat_api_error e)))
  /\ (forall e, other_class (exn_cls e) ->
        (one_shot = Raise e ->
         get_ai_analysis generate_content data_for_ai api_key
         = Ok (analysis_unknown_error e))
        /\ (chat = Raise e ->
            get_chat_response generate_content messages prompt context_data
              api_key = Ok (chat_unknown_error e)))
  /\ (forall e e', analysis_api_error e <> analysis_unknown_error e')
  /\ (forall e e', chat_api_error e <> chat_unknown_error e').
Proof.
  intros one_shot chat api_class other_class.
  assert (Hapi : forall e, api_class (exn_cls e) -> isinstance e APIError = true).
  { intros e [H|(name & bases & H & Hin)]; unfold isinstance; rewrite H.
    - reflexivity.
    - simpl. apply existsb_exists. exists APIError. split; [exact Hin|reflexivity]. }
  assert (Hother : forall e, other_class (exn_cls e) ->
                     isinstance e APIError = false).
  { intros e [H|[H|[H|[H|(name & H)]]]]; unfold isinstance; rewrite H;
      reflexivity. }
  rewrite get_ai_analysis_cases, get_chat_response_cases.
  fold one_shot chat.
  split; [split; eexists; reflexivity|].
  split; [intros answer; split; intros ->; reflexivity|].
  split; [intros e He; split; intros ->; now rewrite (Hapi e He)|].
  split; [intros e He; split; intros ->; now rewrite (Hother e He)|].
  split.
  - intros e e'. unfold analysis_api_error, analysis_unknown_error. simpl.
    discriminate.
  - intros e e'. unfold chat_api_error, chat_unknown_error. simpl.
    discriminate.
Qed.

Lemma ai_calls_never_raise_witness :
  get_ai_analysis
    (fun _ _ _ => Raise (mkExn ClientError "400 INVALID_ARGUMENT")) "data" "key"
  = Ok (analysis_api_error (mkExn ClientError "400 INVALID_ARGUMENT"))
  /\ get_chat_response
       (fun _ _ _ => Raise (mkExn ValueError "bad value"))
       [mkChatTurn "user" "c"] "c" (Some "data") "key"
     = Ok (chat_unknown_error (mkExn ValueError "bad value")).
Proof.
  split.
  - refine (proj1 (proj1 (proj2 (proj2
              (ai_calls_never_raise
                 (fun _ _ _ => Raise (mkExn ClientError "400 INVALID_ARGUMENT"))
                 "data" [] "c" None "key")))
              (mkExn ClientError "400 INVALID_ARGUMENT") _) eq_refl).
    right. exists "ClientError", [APIError]. split; [reflexivity|now left].
  - refine (proj2 (proj1 (proj2 (proj2 (proj2
              (ai_calls_never_raise
                 (fun _ _ _ => Raise (mkExn ValueError "bad value"))
                 "data" [mkChatTurn "user" "c"] "c" (Some "data") "key"))))
              (mkExn ValueError "bad value") _) eq_refl).
    right. left. reflexivity.
Defined.

(* ================================================================== *)
(** * Guarded divisions and the share of the total row *)

Local Open Scope float_scope.

(** The first selected row is a cleaned row of the table. *)
Lemma rows_matching_head (fold : N -> N) (pat : string) (df : list LineItem)
    (r0 : LineItem) (rest : list LineItem) :
  rows_matching fold pat (map coerce df) = r0 :: rest ->
  exists r, In r df /\ r0 = coerce r.
Proof.
  intros E. assert (H : In r0 (rows_matching fold pat (map coerce df)))
    by (rewrite E; now left).
  unfold rows_matching in H. apply filter_In in H. destruct H as [H _].
  apply in_map_iff in H. destruct H as (r & <- & Hr). eauto.
Qed.

(** C7 (as amended): every division of the ratio engine has a guarded
    divisor.  In a processed table the growth of a row is
    (current - prior) / d * 100 and its shares are prior / d1 * 100 and
    current / d2 * 100, where d, d1 and d2 are neither zero nor NaN: a
    zero prior value and a zero Total-Assets value are replaced by 1e-9.
    When no cell of the input is infinite, none of the three results is
    NaN.  Nothing bounds the quotients: they can be infinite. *)
Theorem divisions_are_guarded (fold : N -> N) (df : list LineItem)
    (t : list EnrichedRow) :
  process_financial_data fold df = Ok t ->
  exists tong_tai_san_N_1 tong_tai_san_N,
    let divisor_N_1 := divisor tong_tai_san_N_1 in
    let divisor_N := divisor tong_tai_san_N in
    ((divisor_N_1 =? 0) = false /\ is_nan divisor_N_1 = false)
    /\ ((divisor_N =? 0) = false /\ is_nan divisor_N = false)
    /\ Forall (fun e =>
                 let p := nam_truoc (item e) in
                 let c := nam_sau (item e) in
                 ((replace0 p =? 0) = false /\ is_nan (replace0 p) = false)
                 /\ toc_do_tang_truong e = (c - p) / replace0 p * 100
                 /\ ty_trong_nam_truoc e = p / divisor_N_1 * 100
                 /\ ty_trong_nam_sau e = c / divisor_N * 100) t
    /\ (Forall (fun r => is_infinity (nam_truoc r) = false
                         /\ is_infinity (nam_sau r) = false) df ->
        Forall (fun e => is_nan (toc_do_tang_truong e) = false
                         /\ is_nan (ty_trong_nam_truoc e) = false
                         /\ is_nan (ty_trong_nam_sau e) = false) t).
Proof.
  intros Ht. destruct (process_financial_data_Ok _ _ _ Ht) as (r0 & rest & E & ->).
  destruct (rows_matching_head _ _ _ _ _ E) as (r' & Hin & ->).
  exists (nam_truoc (coerce r')), (nam_sau (coerce r')). cbv zeta.
  pose proof (divisor_guard _ (fillna0_not_nan (nam_truoc r'))) as G1.
  pose proof (divisor_guard _ (fillna0_not_nan (nam_sau r'))) as G2.
  simpl nam_truoc in *. simpl nam_sau in *.
  split; [exact G1|]. split; [exact G2|]. split.
  - apply Forall_forall. intros e He.
    apply in_map_iff in He. destruct He as (c & <- & Hc).
    apply in_map_iff in Hc. destruct Hc as (r & <- & Hr). simpl.
    split; [apply replace0_guard, fillna0_not_nan|].
    repeat split.
  - intros Hfin. rewrite Forall_forall in Hfin.
    destruct (Hfin _ Hin) as [F1 F2].
    apply Forall_forall. intros e He.
    apply in_map_iff in He. destruct He as (c & <- & Hc).
    apply in_map_iff in Hc. destruct Hc as (r & <- & Hr).
    destruct (Hfin _ Hr) as [R1 R2]. simpl. unfold growth. simpl.
    repeat split.
    + apply percent_not_nan.
      * apply sub_not_nan; auto using fillna0_not_nan, fillna0_not_inf.
      * apply replace0_guard, fillna0_not_nan.
      * apply replace0_guard, fillna0_not_nan.
      * apply replace0_not_inf, fillna0_not_inf, R1.
    + apply percent_not_nan; try apply G1; auto using fillna0_not_nan.
      apply divisor_not_inf, fillna0_not_inf, F1.
    + apply percent_not_nan; try apply G2; auto using fillna0_not_nan.
      apply divisor_not_inf, fillna0_not_inf, F2.
Qed.

Lemma divisions_are_guarded_witness :
  exists t,
    process_financial_data Str.vn_lower balance_sheet = Ok t
    /\ Forall (fun e => is_nan (toc_do_tang_truong e) = false
                        /\ is_nan (ty_trong_nam_truoc e) = false
                        /\ is_nan (ty_trong_nam_sau e) = false) t.
Proof.
  eexists. split; [vm_compute; reflexivity|].
  destruct (divisions_are_guarded Str.vn_lower balance_sheet _ eq_refl)
    as (d1 & d2 & _ & _ & _ & H).
  apply H. repeat constructor.
Defined.

(** C7, as the specification states it, fails on the code: the cells of
    [huge_growth] are finite numbers, and the growth of its second row,
    (1e300 - 0) / 1e-9 * 100, is infinite. *)
Lemma growth_overflows :
  Forall (fun r => is_finite (nam_truoc r) = true
                   /\ is_finite (nam_sau r) = true) huge_growth
  /\ exists t,
       process_financial_data Str.vn_lower huge_growth = Ok t
       /\ map toc_do_tang_truong t = [100; infinity]
       /\ is_infinity infinity = true.
Proof.
  split.
  - repeat constructor.
  - eexists. split; [vm_compute; reflexivity|]. split; reflexivity.
Qed.

Lemma nth_error_middle {A} (l1 l2 : list A) (x : A) :
  nth_error (l1 ++ x :: l2) (List.length l1) = Some x.
Proof. induction l1; simpl; auto. Qed.

(** The share of a value over itself, and of a zero over the epsilon. *)
Lemma share_of_self (x : float) :
  is_nan x = false -> (x =? 0) = false -> is_infinity x = false ->
  x / divisor x * 100 = 100.
Proof.
  intros Hn Hz Hi. unfold divisor, neq0. rewrite Hz. simpl.
  now rewrite div_self.
Qed.

Lemma share_of_zero (x : float) :
  (x =? 0) = true -> (x / divisor x * 100 =? 0) = true.
Proof.
  intros Hz. unfold divisor, neq0. rewrite Hz. simpl.
  destruct (zero_shape x Hz) as [-> | ->]; reflexivity.
Qed.

(** C4 (as amended): the shares of the first row whose label contains
    the Total-Assets text.  Every row of the processed table gets the same
    share formula, over the values of that row.  For that row itself the
    share of a period is exactly 100 when its value for the period is a
    nonzero finite number; when the value is zero (an empty or non-numeric
    cell included) the divisor is 1e-9 and the share is 0. *)
Theorem share_of_first_total_row (fold : N -> N)
    (before after : list LineItem) (r : LineItem) :
  Forall (fun r => Str.str_contains fold TONG_CONG_TAI_SAN (chi_tieu r) = false)
    before ->
  Str.str_contains fold TONG_CONG_TAI_SAN (chi_tieu r) = true ->
  let p := fillna0 (nam_truoc r) in
  let c := fillna0 (nam_sau r) in
  let e := enrich (divisor p) (divisor c) (coerce r) in
  exists t,
    process_financial_data fold (before ++ r :: after) = Ok t
    /\ t = map (enrich (divisor p) (divisor c)) (map coerce (before ++ r :: after))
    /\ nth_error t (List.length before) = Some e
    /\ ((p =? 0) = false -> is_infinity p = false -> ty_trong_nam_truoc e = 100)
    /\ ((c =? 0) = false -> is_infinity c = false -> ty_trong_nam_sau e = 100)
    /\ ((p =? 0) = true -> (ty_trong_nam_truoc e =? 0) = true)
    /\ ((c =? 0) = true -> (ty_trong_nam_sau e =? 0) = true).
Proof.
  intros Hb Hr p c e. eexists. split; [|split; [reflexivity|]].
  - apply (process_financial_data_matched fold _ (coerce r)
             (map coerce (rows_matching fold TONG_CONG_TAI_SAN after))).
    now rewrite rows_matching_coerce, (rows_matching_first _ _ _ _ _ Hb Hr).
  - split.
    + rewrite !map_app. simpl.
      rewrite <- (length_map coerce before).
      rewrite <- (length_map (enrich (divisor p) (divisor c)) (map coerce before)).
      apply nth_error_middle.
    + subst e. simpl. fold p c. repeat split.
      * intros Hz Hi. apply share_of_self; auto. apply fillna0_not_nan.
      * intros Hz Hi. apply share_of_self; auto. apply fillna0_not_nan.
      * apply share_of_zero.
      * apply share_of_zero.
Qed.

Lemma share_of_first_total_row_witness :
  exists t e,
    process_financial_data Str.vn_lower balance_sheet = Ok t
    /\ nth_error t 0 = Some e
    /\ ty_trong_nam_truoc e = 100
    /\ ty_trong_nam_sau e = 100.
Proof.
  destruct (share_of_first_total_row Str.vn_lower []
              [mkLineItem (Some "Tài sản ngắn hạn") 50 80;
               mkLineItem (Some "Nợ ngắn hạn") 25 40]
              (mkLineItem (Some "TỔNG CỘNG TÀI SẢN") 100 200)
              (Forall_nil _) eq_refl)
    as (t & Ht & _ & Hn & Hp & Hc & _).
  exists t. eexists. split; [exact Ht|]. split; [exact Hn|].
  split; [apply Hp|apply Hc]; reflexivity.
Defined.

(** C4, as the specification states it, fails on the code: the total row
    of [empty_total] is zero in both periods, and its two shares are 0,
    not 100. *)
Lemma share_of_empty_total_row :
  exists t e,
    process_financial_data Str.vn_lower empty_total = Ok t
    /\ nth_error t 0 = Some e
    /\ chi_tieu (item e) = Some TONG_CONG_TAI_SAN
    /\ ty_trong_nam_truoc e = 0
    /\ ty_trong_nam_sau e = 0
    /\ (0 =? 100) = false.
Proof.
  do 2 eexists. split; [vm_compute; reflexivity|].
  repeat split; reflexivity.
Qed.

(* ================================================================== *)
(** * Label search *)

Lemma match_here_iff (fold : N -> N) (pat : list N) : forall txt,
  Str.match_here fold pat txt = true
  <-> exists m b, txt = (m ++ b)%list /\ map fold m = map fold pat.
Proof.
  induction pat as [|p pat IH]; intros txt; simpl.
  - split; [intros _; exists [], txt; auto|reflexivity].
  - destruct txt as [|c txt].
    + split; [discriminate|].
      intros (m & b & E & Hm). destruct m; [discriminate|discriminate].
    + rewrite andb_true_iff, N.eqb_eq, IH. split.
      * intros (Hc & m & b & -> & Hm). exists (c :: m), b. simpl.
        split; [reflexivity|]. now rewrite Hm, Hc.
      * intros (m & b & E & Hm). destruct m as [|c' m]; [discriminate|].
        simpl in E, Hm. injection E as <- ->. injection Hm as Hc Hm.
        split; [now symmetry|]. now exists m, b.
Qed.

Lemma search_iff (fold : N -> N) (pat : list N) : forall txt,
  Str.search fold pat txt = true
  <-> exists a m b, txt = (a ++ m ++ b)%list /\ map fold m = map fold pat.
Proof.
  induction txt as [|c txt IH]; simpl; rewrite orb_true_iff.
  - rewrite match_here_iff. split.
    + intros [(m & b & E & Hm)|H]; [|discriminate]. now exists [], m, b.
    + intros (a & m & b & E & Hm). left.
      destruct a; [|discriminate]. now exists m, b.
  - rewrite match_here_iff, IH. split.
    + intros [(m & b & E & Hm)|(a & m & b & E & Hm)].
      * now exists [], m, b.
      * exists (c :: a), m, b. now rewrite E.
    + intros (a & m & b & E & Hm). destruct a as [|c' a].
      * left. now exists m, b.
      * right. simpl in E. injection E as <- ->. now exists a, m, b.
Qed.

(** X1: [str.contains(pat, case=False, na=False)] is a substring test up
    to case folding.  A label matches exactly when it is a string whose
    code points hold a run that folds, character by character, to the
    folded pattern; a cell that holds no string never matches. *)
Theorem str_contains_iff_folded_substring (fold : N -> N) (pat : string)
    (cell : option string) :
  Str.str_contains fold pat cell = true
  <-> exists s a m b,
        cell = Some s
        /\ Str.codepoints s = (a ++ m ++ b)%list
        /\ map fold m = map fold (Str.codepoints pat).
Proof.
  destruct cell as [s|]; simpl.
  - rewrite search_iff. split.
    + intros (a & m & b & E & Hm). now exists s, a, m, b.
    + intros (s' & a & m & b & [= <-] & E & Hm). now exists a, m, b.
  - split; [discriminate|]. intros (s & a & m & b & E & _). discriminate.
Qed.

(* ================================================================== *)
(** * Further properties of the ratio engine *)

Local Open Scope float_scope.








(** X4: a lookup of the current-ratio block reads the first row, in file
    order, whose label contains the text, whatever follows it; with no
    such row it raises an IndexError. *)
Theorem first_value_reads_first_match (fold : N -> N) (pat : string)
    (col : LineItem -> float) (before after : list EnrichedRow)
    (e : EnrichedRow) :
  Forall (fun x => Str.str_contains fold pat (chi_tieu (item x)) = false) before ->
  (Str.str_contains fold pat (chi_tieu (item e)) = true ->
   first_value fold pat col (before ++ e :: after) = Ok (col (item e)))
  /\ exists msg, first_value fold pat col before = Raise (mkExn IndexError msg).
Proof.
  intros Hb.
  assert (Hb' : Forall (fun r => Str.str_contains fold pat (chi_tieu r) = false)
                  (map item before)).
  { apply Forall_forall. intros r Hr. apply in_map_iff in Hr.
    destruct Hr as (x & <- & Hx). rewrite Forall_forall in Hb. now apply Hb. }
  unfold first_value. split.
  - intros He. rewrite map_app. simpl.
    now rewrite (rows_matching_first _ _ _ _ _ Hb' He).
  - rewrite (rows_matching_none _ _ _ Hb'). simpl. eexists. reflexivity.
Qed.

Lemma first_value_reads_first_match_witness :
  first_value Str.vn_lower NO_NGAN_HAN nam_truoc
    ([mkEnrichedRow (mkLineItem (Some "Tiền") 1 2) 100 1 1]
     ++ mkEnrichedRow (mkLineItem (Some "Nợ ngắn hạn") 25 40) 60 25 20
     :: [mkEnrichedRow (mkLineItem (Some "NỢ NGẮN HẠN KHÁC") 7 8) 0 7 8])
  = Ok 25.
Proof.
  refine (proj1 (first_value_reads_first_match Str.vn_lower NO_NGAN_HAN nam_truoc
                   [mkEnrichedRow (mkLineItem (Some "Tiền") 1 2) 100 1 1]
                   [mkEnrichedRow (mkLineItem (Some "NỢ NGẮN HẠN KHÁC") 7 8) 0 7 8]
                   (mkEnrichedRow (mkLineItem (Some "Nợ ngắn hạn") 25 40) 60 25 20)
                   _) _).
  - repeat (constructor; [vm_compute; reflexivity|]). constructor.
  - vm_compute. reflexivity.
Defined.

(** X5: the current-ratio block never raises.  When no label contains
    the Current-Assets text, or none the Current-Liabilities text, it
    shows the warning of the missing rows and leaves the three metrics at
    "N/A"; the processing goes on. *)
Theorem current_ratio_block_never_raises (fold : N -> N)
    (t : list EnrichedRow) :
  (exists cr shown, current_ratio_block fold t = Ok (cr, shown))
  /\ (rows_matching fold TAI_SAN_NGAN_HAN (map item t) = []
      \/ rows_matching fold NO_NGAN_HAN (map item t) = [] ->
      current_ratio_block fold t
      = Ok (mkCurrentRatio NA NA NA,
            [w_warning "Thiếu chỉ tiêu 'TÀI SẢN NGẮN HẠN' hoặc 'NỢ NGẮN HẠN' để tính chỉ số."])).
Proof.
  unfold current_ratio_block, current_ratio, first_value.
  destruct (rows_matching fold TAI_SAN_NGAN_HAN (map item t)) as [|a la];
    destruct (rows_matching fold NO_NGAN_HAN (map item t)) as [|b lb];
    simpl; split; try (intros _; reflexivity); try (do 2 eexists; reflexivity).
  - destruct (neq0 (nam_sau b) && neq0 (nam_truoc b));
      do 2 eexists; reflexivity.
  - intros [H|H]; discriminate.
Qed.

Lemma current_ratio_block_never_raises_witness :
  current_ratio_block Str.vn_lower
    [mkEnrichedRow (mkLineItem (Some TONG_CONG_TAI_SAN) 100 200) 100 100 100]
  = Ok (mkCurrentRatio NA NA NA,
        [w_warning "Thiếu chỉ tiêu 'TÀI SẢN NGẮN HẠN' hoặc 'NỢ NGẮN HẠN' để tính chỉ số."]).
Proof.
  apply (proj2 (current_ratio_block_never_raises Str.vn_lower _)).
  left. vm_compute. reflexivity.
Defined.

(** Zeros in float64 arithmetic. *)
Lemma eqb0_of_zero (x : float) (s : bool) :
  Prim2SF x = S754_zero s -> (x =? 0) = true.
Proof.
  intros E. pose proof (Prim2SF_cases x) as H. rewrite E in H. apply H.
Qed.

Lemma zero_of_eqb0 (x : float) :
  (x =? 0) = true -> exists s, Prim2SF x = S754_zero s.
Proof.
  intros Hz. pose proof (Prim2SF_cases x) as H.
  destruct (Prim2SF x) as [s|s| |s m e].
  - now exists s.
  - destruct H as (_ & H & _). congruence.
  - destruct H as [_ H]. congruence.
  - destruct H as (_ & H & _). congruence.
Qed.

Lemma SFsub_self (x : spec_float) :
  regular x = true -> SF64sub x x = S754_zero false.
Proof.
  destruct x as [s|s| |s m e]; try discriminate; intros _.
  - destruct s; reflexivity.
  - unfold SF64sub, SFsub. now rewrite Z.sub_diag.
Qed.

Lemma sub_self (x : float) :
  is_nan x = false -> is_infinity x = false -> x - x = 0.
Proof.
  intros Hn Hi. apply Prim2SF_inj. rewrite sub_spec.
  now rewrite SFsub_self by now apply regular_Prim2SF.
Qed.

Lemma zero_div (x d : float) :
  (x =? 0) = true -> (d =? 0) = false -> is_nan d = false ->
  (x / d =? 0) = true.
Proof.
  intros Hx Hz Hn. destruct (zero_of_eqb0 x Hx) as [sx Ex].
  pose proof (Prim2SF_cases d) as Hd.
  pose proof (div_spec x d) as E. rewrite Ex in E.
  destruct (Prim2SF d) as [s|s| |s m e].
  - destruct Hd as (_ & Hd & _). congruence.
  - exact (eqb0_of_zero _ _ E).
  - destruct Hd as [Hd _]. congruence.
  - exact (eqb0_of_zero _ _ E).
Qed.

Lemma zero_mul_100 (x : float) : (x =? 0) = true -> (x * 100 =? 0) = true.
Proof.
  intros Hx. destruct (zero_of_eqb0 x Hx) as [sx Ex].
  pose proof (mul_spec x 100) as E. rewrite Ex in E.
  exact (eqb0_of_zero _ _ E).
Qed.

(** X6: zeros of the processed table.  A row whose value is zero in a
    period (an empty or non-numeric cell included) has a share of zero
    in that period, whatever the Total-Assets value; a row with the same
    value in both periods, not infinite, has a growth of zero. *)
Theorem zero_shares_and_zero_growth (fold : N -> N) (df : list LineItem)
    (t : list EnrichedRow) :
  process_financial_data fold df = Ok t ->
  Forall (fun e =>
            ((nam_truoc (item e) =? 0) = true -> (ty_trong_nam_truoc e =? 0) = true)
            /\ ((nam_sau (item e) =? 0) = true -> (ty_trong_nam_sau e =? 0) = true)
            /\ (nam_sau (item e) = nam_truoc (item e) ->
                is_infinity (nam_truoc (item e)) = false ->
                (toc_do_tang_truong e =? 0) = true)) t.
Proof.
  intros Ht. destruct (process_financial_data_Ok _ _ _ Ht) as (r0 & rest & E & ->).
  destruct (rows_matching_head _ _ _ _ _ E) as (r' & _ & ->).
  pose proof (divisor_guard _ (fillna0_not_nan (nam_truoc r'))) as [G1 G1'].
  pose proof (divisor_guard _ (fillna0_not_nan (nam_sau r'))) as [G2 G2'].
  apply Forall_forall. intros e He.
  apply in_map_iff in He. destruct He as (c & <- & Hc).
  apply in_map_iff in Hc. destruct Hc as (r & <- & _). simpl.
  repeat split.
  - intros Hz. now apply zero_mul_100, zero_div.
  - intros Hz. now apply zero_mul_100, zero_div.
  - intros Heq Hi. unfold growth. simpl. rewrite Heq.
    rewrite sub_self by (trivial; apply fillna0_not_nan).
    apply zero_mul_100, zero_div; [reflexivity| |];
      apply replace0_guard, fillna0_not_nan.
Qed.

Lemma zero_shares_and_zero_growth_witness :
  exists t,
    process_financial_data Str.vn_lower
      [mkLineItem (Some TONG_CONG_TAI_SAN) 100 200; mkLineItem (Some "Tiền") 0 0]
    = Ok t
    /\ Forall (fun e =>
                 ((nam_truoc (item e) =? 0) = true
                  -> (ty_trong_nam_truoc e =? 0) = true)
                 /\ ((nam_sau (item e) =? 0) = true
                     -> (ty_trong_nam_sau e =? 0) = true)
                 /\ (nam_sau (item e) = nam_truoc (item e) ->
                     is_infinity (nam_truoc (item e)) = false ->
                     (toc_do_tang_truong e =? 0) = true)) t.
Proof.
  eexists. split; [vm_compute; reflexivity|].
  apply (zero_shares_and_zero_growth Str.vn_lower
           [mkLineItem (Some TONG_CONG_TAI_SAN) 100 200;
            mkLineItem (Some "Tiền") 0 0]).
  vm_compute. reflexivity.
Defined.

(* ================================================================== *)
(** * Further properties of the chat request *)

Local Open Scope string_scope.

Lemma history_turn_shape (m : ChatTurn) (c : Content) :
  history_turn m = Some c ->
  (role m = "user" /\ c = mkContent "user" [mkPart (content m)])
  \/ (role m = "assistant" /\ c = mkContent "model" [mkPart (content m)]).
Proof.
  unfold history_turn, gemini_role.
  destruct (String.eqb_spec (role m) "user") as [Hu|Hu].
  - destruct (_ && _); [|discriminate]. intros [= <-]. now left.
  - destruct (String.eqb_spec (role m) "assistant") as [Ha|Ha]; [|discriminate].
    destruct (_ && _); [|discriminate]. intros [= <-]. now right.
Qed.

(** X7: the request is never empty and is made of turns of the two roles
    of the model only, each with one part of text.  A turn of the history
    is sent under the role user when its role is user and under model
    when it is assistant; a turn of any other role is not sent. *)
Theorem request_turns_are_well_formed (messages : list ChatTurn)
    (context_data : option string) (prompt : string) :
  build_contents messages context_data prompt <> []
  /\ Forall (fun c => (c_role c = "user" \/ c_role c = "model")
                      /\ List.length (parts c) = 1%nat)
       (build_contents messages context_data prompt)
  /\ Forall (fun m => role m <> "user" -> role m <> "assistant" ->
                      history_turn m = None) messages.
Proof.
  unfold build_contents. repeat split.
  - intros E. apply app_eq_nil in E. destruct E as [_ E]. discriminate.
  - apply Forall_app. split.
    + induction (removelast messages) as [|m l IH]; simpl; [constructor|].
      destruct (history_turn m) as [c|] eqn:Hc; [|exact IH].
      constructor; [|exact IH].
      destruct (history_turn_shape _ _ Hc) as [[_ ->]|[_ ->]]; simpl; auto.
    + repeat constructor.
  - apply Forall_forall. intros m _ Hu Ha. unfold history_turn, gemini_role.
    apply String.eqb_neq in Hu, Ha. now rewrite Hu, Ha.
Qed.

Lemma diagnostic_is_sent (rest : string) :
  history_turn (mkChatTurn "assistant" (String "L" rest))
  = Some (mkContent "model" [mkPart (String "L" rest)]).
Proof.
  unfold history_turn. simpl gemini_role. cbv iota.
  unfold Str.startswith, upload_prefix, uploaded_prefix. simpl. reflexivity.
Qed.

(* ================================================================== *)
(** * Properties of the page script *)

Lemma announce_idem (msgs : list ChatTurn) :
  announce (announce msgs) = announce msgs.
Proof.
  destruct msgs as [|m [|m' l]]; try reflexivity. simpl.
  destruct (Str.startswith (content m) "Vui lòng tải file") eqn:E; simpl.
  - reflexivity.
  - now rewrite E.
Qed.

Lemma announce_nonempty (msgs : list ChatTurn) :
  msgs <> [] -> announce msgs <> [].
Proof.
  destruct msgs as [|m [|m' l]]; simpl; try congruence.
  destruct (Str.startswith (content m) "Vui lòng tải file"); discriminate.
Qed.

Section ScriptFacts.
Variable fold : N -> N.
Variable generate_content : string -> string -> Contents -> result string.
Variable data_for_ai : list EnrichedRow -> CurrentRatio -> string.

Lemma get_ai_analysis_reply (data api_key : string) :
  get_ai_analysis generate_content data api_key
  = Ok (analysis_reply generate_content data api_key).
Proof. apply get_ai_analysis_cases. Qed.

Lemma get_chat_response_reply (msgs : list ChatTurn) (prompt : string)
    (context_data : option string) (api_key : string) :
  get_chat_response generate_content msgs prompt context_data api_key
  = Ok (chat_reply generate_content msgs prompt context_data api_key).
Proof. apply get_chat_response_cases. Qed.

Lemma analysis_section_ok (inp : Inputs) (data : string) :
  exists shown, analysis_section generate_content inp data = Ok shown.
Proof.
  unfold analysis_section. destruct (analysis_button inp); [|eauto].
  destruct (truthy (api_key inp)); [|eauto].
  rewrite get_ai_analysis_reply. simpl. eauto.
Qed.

(** The chat section, its calls resolved. *)
Lemma chat_section_eq (inp : Inputs) (msgs : list ChatTurn) (data : string) :
  chat_section generate_content inp msgs data
  = match truthy (chat_input inp) with
    | Some prompt =>
        let msgs' := (announce msgs ++ [mkChatTurn "user" prompt])%list in
        match truthy (api_key inp) with
        | Some k =>
            let full_response :=
              chat_reply generate_content msgs' prompt (Some data) k in
            Ok ((msgs' ++ [mkChatTurn "assistant" full_response])%list,
                (show_messages (announce msgs)
                 ++ [w_chat_input false;
                     w_chat_message "user" prompt;
                     w_chat_message "assistant" full_response])%list)
        | None =>
            Ok (msgs',
                (show_messages (announce msgs)
                 ++ [w_chat_input false;
                     w_chat_message "user" prompt;
                     w_error "Không có Khóa API để thực hiện chat."])%list)
        end
    | None =>
        Ok (announce msgs,
            (show_messages (announce msgs) ++ [w_chat_input false])%list)
    end.
Proof.
  unfold chat_section. fold (announce msgs).
  destruct (truthy (chat_input inp)); [|reflexivity].
  destruct (truthy (api_key inp)); [|reflexivity].
  rewrite get_chat_response_reply. reflexivity.
Qed.

Lemma chat_section_ok (inp : Inputs) (msgs : list ChatTurn) (data : string) :
  exists extra shown,
    chat_section generate_content inp msgs data
    = Ok ((announce msgs ++ extra)%list, shown).
Proof.
  rewrite chat_section_eq.
  destruct (truthy (chat_input inp)) as [prompt|].
  - destruct (truthy (api_key inp)) as [k|]; cbv zeta.
    + rewrite <- app_assoc. eauto.
    + eauto.
  - exists [], (show_messages (announce msgs) ++ [w_chat_input false])%list.
    now rewrite app_nil_r.
Qed.

Lemma current_ratio_block_total (t : list EnrichedRow) :
  exists cr shown, current_ratio_block fold t = Ok (cr, shown).
Proof.
  unfold current_ratio_block, current_ratio, first_value.
  destruct (rows_matching fold TAI_SAN_NGAN_HAN (map item t)) as [|a la];
    destruct (rows_matching fold NO_NGAN_HAN (map item t)) as [|b lb];
    simpl; try (do 2 eexists; reflexivity).
  destruct (neq0 (nam_sau b) && neq0 (nam_truoc b)); do 2 eexists; reflexivity.
Qed.

(** The body of the [try], when the table is read and processed. *)
Lemma upload_body_ok (st : Session) (inp : Inputs) (df : list LineItem)
    (t : list EnrichedRow) :
  process_financial_data fold df = Ok t ->
  exists cr ratio_shown analysis_shown msgs' chat_shown,
    current_ratio_block fold t = Ok (cr, ratio_shown)
    /\ analysis_section generate_content inp (data_for_ai t cr)
       = Ok analysis_shown
    /\ chat_section generate_content inp (messages st) (data_for_ai t cr)
       = Ok (msgs', chat_shown)
    /\ upload_body fold generate_content data_for_ai st inp (Ok df)
       = Ok (mkSession msgs' (Some (data_for_ai t cr)),
             ([w_subheader "2. Tốc độ Tăng trưởng & 3. Tỷ trọng Cơ cấu Tài sản";
               w_dataframe t;
               w_subheader "4. Các Chỉ số Tài chính Cơ bản"]
              ++ ratio_shown
              ++ [w_subheader "5. Nhận xét Tình hình Tài chính (AI Tổng quan)"]
              ++ analysis_shown
              ++ [w_subheader "6. Chatbot Tài chính Tương tác (Hỏi đáp chuyên sâu)"]
              ++ chat_shown)%list).
Proof.
  intros Ht. unfold upload_body. cbn [bind]. rewrite Ht. cbn [bind].
  destruct (current_ratio_block_total t) as (cr & rw & Hb).
  rewrite Hb. cbn [bind fst snd].
  destruct (analysis_section_ok inp (data_for_ai t cr)) as (aw & Ha).
  rewrite Ha. cbn [bind].
  destruct (chat_section_ok inp (messages st) (data_for_ai t cr))
    as (extra & cw & Hc).
  rewrite Hc. cbn [bind fst snd]. do 5 eexists.
  split; [reflexivity|split; [exact Ha|split; [exact Hc|reflexivity]]].
Qed.

(** What the [try] of a pass with a file comes to. *)
Lemma upload_pass_eq (st : Session) (inp : Inputs)
    (read_excel : result (list LineItem)) :
  upload_pass fold generate_content data_for_ai st inp read_excel
  = res <- match upload_body fold generate_content data_for_ai st inp read_excel with
           | Ok res => Ok res
           | Raise e =>
               if isinstance e ValueError
               then Ok (mkSession [data_error_turn e] None,
                        [w_error ("Lỗi cấu trúc dữ liệu: " ++ exn_str e)])
               else Ok (mkSession
                          [mkChatTurn "assistant"
                             ("Lỗi xử lý file. Vui lòng tải file mới: " ++ exn_str e)]
                          None,
                        [w_error ("Có lỗi xảy ra khi đọc hoặc xử lý file: " ++ exn_str e
                                  ++ ". Vui lòng kiểm tra định dạng file.")])
           end ;;
    Ok (fst res,
        match truthy (api_key inp) with
        | Some _ => snd res
        | None =>
            w_error "Lỗi: Không tìm thấy Khóa API. Vui lòng cấu hình Khóa 'GEMINI_API_KEY' trong Streamlit Secrets."
            :: snd res
        end).
Proof.
  unfold upload_pass, try_except.
  destruct (upload_body fold generate_content data_for_ai st inp read_excel)
    as [res|e]; [reflexivity|].
  unfold handle. rewrite isinstance_Exception.
  destruct (isinstance e ValueError); reflexivity.
Qed.

(** The body raises only what reading or processing the table raises. *)
Lemma upload_body_raise (st : Session) (inp : Inputs)
    (read_excel : result (list LineItem)) (e : exn) :
  upload_body fold generate_content data_for_ai st inp read_excel = Raise e ->
  forall st', upload_body fold generate_content data_for_ai st' inp read_excel
              = Raise e.
Proof.
  destruct read_excel as [df|e0]; [|intros H st'; exact H].
  destruct (process_financial_data fold df) as [t|e1] eqn:Ht.
  - destruct (upload_body_ok st inp df t Ht)
      as (? & ? & ? & ? & ? & _ & _ & _ & E).
    rewrite E. discriminate.
  - intros H st'. unfold upload_body in *. simpl in *. rewrite Ht in *.
    exact H.
Qed.

(** X8: a pass of the script with a file never raises, and a pass over a
    history that is not empty leaves a history that is not empty: the
    first message read by the pass with no file is always there. *)
Theorem pass_keeps_history_nonempty (st : Session) (inp : Inputs) :
  (forall read_excel,
     exists st' shown,
       upload_pass fold generate_content data_for_ai st inp read_excel
       = Ok (st', shown))
  /\ (messages st <> [] ->
      exists st' shown,
        run_script fold generate_content data_for_ai st inp = Ok (st', shown)
        /\ messages st' <> []).
Proof.
  assert (Hup : forall read_excel,
            exists st' shown,
              upload_pass fold generate_content data_for_ai st inp read_excel
              = Ok (st', shown)
              /\ (messages st <> [] -> messages st' <> [])).
  { intros read_excel. rewrite upload_pass_eq.
    destruct (upload_body fold generate_content data_for_ai st inp read_excel)
      as [[st' shown]|e] eqn:E.
    - do 2 eexists. split; [reflexivity|]. simpl. intros Hne.
      destruct read_excel as [df|e0]; [|discriminate].
      destruct (process_financial_data fold df) as [t|e1] eqn:Ht.
      + destruct (upload_body_ok st inp df t Ht)
          as (cr & rw & aw & msgs' & cw & _ & _ & Hc & E').
        rewrite E' in E. injection E as <- _. simpl.
        destruct (chat_section_ok inp (messages st) (data_for_ai t cr))
          as (extra & cw' & Hc').
        rewrite Hc' in Hc. injection Hc as <- _.
        intros H. apply app_eq_nil in H. destruct H as [H _].
        now apply (announce_nonempty _ Hne).
      + unfold upload_body in E. simpl in E. rewrite Ht in E. discriminate.
    - destruct (isinstance e ValueError); do 2 eexists;
        (split; [reflexivity|]); simpl; discriminate. }
  split.
  - intros read_excel. destruct (Hup read_excel) as (st' & shown & H & _). eauto.
  - intros Hne. unfold run_script.
    destruct (uploaded_file inp) as [read_excel|].
    + destruct (Hup read_excel) as (st' & shown & H & H'). eauto.
    + unfold idle_pass. destruct (messages st) as [|m0 rest] eqn:Hm; [congruence|].
      do 2 eexists. split; [reflexivity|]. simpl.
      destruct (Str.startswith (content m0) uploaded_prefix); discriminate.
Qed.

(** X9: without an API key the service is not called: the pass is the
    same whatever the service would answer.  The same holds, with a key,
    when the button is not pressed and no prompt is submitted. *)
Theorem no_key_no_call
    (generate_content' : string -> string -> Contents -> result string)
    (st : Session) (inp : Inputs) :
  truthy (api_key inp) = None
  \/ (analysis_button inp = false /\ truthy (chat_input inp) = None) ->
  run_script fold generate_content data_for_ai st inp
  = run_script fold generate_content' data_for_ai st inp.
Proof.
  intros H. unfold run_script.
  destruct (uploaded_file inp) as [read_excel|]; [|reflexivity].
  unfold upload_pass. f_equal. f_equal. unfold upload_body.
  destruct read_excel as [df|e]; [|reflexivity]. cbn [bind].
  destruct (process_financial_data fold df) as [t|e]; [|reflexivity].
  cbn [bind].
  destruct (current_ratio_block fold t) as [block|e]; [|reflexivity].
  cbn [bind]. unfold analysis_section, chat_section.
  destruct H as [H|[H1 H2]].
  - rewrite H. destruct (analysis_button inp); reflexivity.
  - rewrite H1, H2. reflexivity.
Qed.

(** X11: a table that is processed is shown and cached, also when the
    rows of the current ratio are missing.  The pass shows the processed
    table and what the current-ratio block shows, and it replaces the
    cached context by the rendering of that table and of the ratios. *)
Theorem processed_upload_is_shown_and_cached (st : Session) (inp : Inputs)
    (df : list LineItem) (t : list EnrichedRow) :
  uploaded_file inp = Some (Ok df) ->
  process_financial_data fold df = Ok t ->
  exists cr ratio_shown st' shown,
    current_ratio_block fold t = Ok (cr, ratio_shown)
    /\ run_script fold generate_content data_for_ai st inp = Ok (st', shown)
    /\ financial_data_context st' = Some (data_for_ai t cr)
    /\ In (w_dataframe t) shown
    /\ incl ratio_shown shown.
Proof.
  intros Hfile Ht. unfold run_script. rewrite Hfile, upload_pass_eq.
  destruct (upload_body_ok st inp df t Ht)
    as (cr & rw & aw & msgs' & cw & Hb & _ & _ & E).
  rewrite E. cbn [bind fst snd].
  exists cr, rw. do 2 eexists. split; [exact Hb|]. split; [reflexivity|].
  split; [reflexivity|].
  assert (Hin : forall w, In w (w_dataframe t :: rw) ->
                  In w ([w_subheader "2. Tốc độ Tăng trưởng & 3. Tỷ trọng Cơ cấu Tài sản";
                         w_dataframe t;
                         w_subheader "4. Các Chỉ số Tài chính Cơ bản"]
                        ++ rw
                        ++ [w_subheader "5. Nhận xét Tình hình Tài chính (AI Tổng quan)"]
                        ++ aw
                        ++ [w_subheader "6. Chatbot Tài chính Tương tác (Hỏi đáp chuyên sâu)"]
                        ++ cw)%list).
  { intros w [<-|Hw]; simpl.
    - right. now left.
    - do 3 right. apply in_or_app. now left. }
  assert (Hfinal : forall l,
            (forall w, In w (w_dataframe t :: rw) -> In w l) ->
            In (w_dataframe t) l /\ incl rw l).
  { intros l H. split; [apply H; now left|intros w Hw; apply H; now right]. }
  destruct (truthy (api_key inp)); apply Hfinal; intros w Hw;
    [|right]; now apply Hin.
Qed.

(** X12: a prompt submitted without an API key stays in the history with
    no answer after it.  The next request then carries it as a user turn
    of its own, before the user turn of the new prompt. *)
Theorem keyless_prompt_stays_in_history (inp : Inputs) (msgs : list ChatTurn)
    (data p : string) :
  truthy (chat_input inp) = Some p ->
  truthy (api_key inp) = None ->
  exists shown,
    chat_section generate_content inp msgs data
    = Ok ((announce msgs ++ [mkChatTurn "user" p])%list, shown)
    /\ In (w_error "Không có Khóa API để thực hiện chat.") shown
    /\ forall q context_data,
         Str.startswith p upload_prefix = false ->
         Str.startswith p uploaded_prefix = false ->
         build_contents
           ((announce msgs ++ [mkChatTurn "user" p]) ++ [mkChatTurn "user" q])
           context_data q
         = (history_turns (announce msgs)
            ++ [mkContent "user" [mkPart p];
                mkContent "user" [mkPart (context_prefix context_data ++ q)]])%list.
Proof.
  intros Hp Hk. rewrite chat_section_eq, Hp, Hk. cbv zeta.
  eexists. split; [reflexivity|]. split.
  - apply in_or_app. right. simpl. auto.
  - intros q c H1 H2. rewrite build_contents_snoc, history_turns_app.
    simpl. rewrite (history_turn_kept (mkChatTurn "user" p) "user");
      [|reflexivity|exact H1|exact H2].
    now rewrite <- app_assoc.
Qed.

(** X13: with a key, the prompt and what [get_chat_response] returns are
    appended to the history, in this order.  When the service raised, the
    stored reply is the diagnostic, and a later request sends it to the
    model as a turn of the model. *)
Theorem chat_reply_is_stored (inp : Inputs) (msgs : list ChatTurn)
    (data p k : string) :
  truthy (chat_input inp) = Some p ->
  truthy (api_key inp) = Some k ->
  let msgs' := (announce msgs ++ [mkChatTurn "user" p])%list in
  let full_response := chat_reply generate_content msgs' p (Some data) k in
  exists shown,
    chat_section generate_content inp msgs data
    = Ok ((msgs' ++ [mkChatTurn "assistant" full_response])%list, shown)
    /\ forall e,
         generate_content k model_name
           (Turns (build_contents msgs' (Some data) p)) = Raise e ->
         (full_response = chat_api_error e \/ full_response = chat_unknown_error e)
         /\ history_turn (mkChatTurn "assistant" full_response)
            = Some (mkContent "model" [mkPart full_response]).
Proof.
  intros Hp Hk msgs' full_response.
  rewrite chat_section_eq, Hp, Hk. cbv zeta. fold msgs'. fold full_response.
  eexists. split; [reflexivity|].
  intros e He. subst full_response. unfold chat_reply. rewrite He.
  destruct (isinstance e APIError).
  - split; [now left|]. apply diagnostic_is_sent.
  - split; [now right|]. apply diagnostic_is_sent.
Qed.

(** X14: taking the file away discards the conversation and keeps the
    context.  From the first history of a session, a pass in which the
    table is processed, whatever is asked in it, followed by a pass with
    no file, leaves the first history again, and the context cached by
    the first pass. *)
Theorem removing_the_file_resets_the_chat (st : Session) (inp inp' : Inputs)
    (df : list LineItem) (t : list EnrichedRow) :
  messages st = messages initial_session ->
  uploaded_file inp = Some (Ok df) ->
  process_financial_data fold df = Ok t ->
  uploaded_file inp' = None ->
  exists cr ratio_shown st1 shown1 shown2,
    current_ratio_block fold t = Ok (cr, ratio_shown)
    /\ run_script fold generate_content data_for_ai st inp = Ok (st1, shown1)
    /\ run_script fold generate_content data_for_ai st1 inp'
       = Ok (mkSession (messages initial_session) (Some (data_for_ai t cr)),
             shown2).
Proof.
  intros Hst Hfile Ht Hnone. unfold run_script.
  rewrite Hfile, Hnone, upload_pass_eq.
  destruct (upload_body_ok st inp df t Ht)
    as (cr & rw & aw & msgs' & cw & Hb & _ & Hc & E).
  rewrite E. cbn [bind fst snd].
  destruct (chat_section_ok inp (messages st) (data_for_ai t cr))
    as (extra & cw' & Hc').
  rewrite Hc' in Hc. injection Hc as <- _.
  exists cr, rw. do 3 eexists. split; [exact Hb|]. split; [reflexivity|].
  unfold idle_pass. cbn [messages financial_data_context].
  rewrite Hst. simpl. reflexivity.
Qed.

(** X15: the message of a data error outlives the error.  The history of
    that one message is not replaced by the announcement when a table is
    processed later, and the next request sends the message to the model
    as a turn of the model. *)
Theorem data_error_turn_is_sent_later (ve : exn) (p : string)
    (context_data : option string) :
  announce [data_error_turn ve] = [data_error_turn ve]
  /\ build_contents ([data_error_turn ve] ++ [mkChatTurn "user" p]) context_data p
     = [mkContent "model" [mkPart (content (data_error_turn ve))];
        mkContent "user" [mkPart (context_prefix context_data ++ p)]].
Proof.
  split; [reflexivity|].
  rewrite build_contents_snoc. unfold data_error_turn.
  change ("Lỗi dữ liệu. Vui lòng tải file mới: " ++ exn_str ve)
    with (String "L" ("ỗi dữ liệu. Vui lòng tải file mới: " ++ exn_str ve)).
  cbn [history_turns content]. now rewrite diagnostic_is_sent.
Qed.

End ScriptFacts.

Lemma pass_keeps_history_nonempty_witness :
  exists st' shown,
    run_script Str.vn_lower exhausted_service plain_data_for_ai initial_session
      (mkInputs (Some (Ok no_total)) None true (Some "Tổng tài sản?"))
    = Ok (st', shown)
    /\ messages st' <> [].
Proof.
  apply (proj2 (pass_keeps_history_nonempty Str.vn_lower exhausted_service
                  plain_data_for_ai initial_session _)).
  discriminate.
Defined.


Lemma no_key_no_call_witness :
  run_script Str.vn_lower exhausted_service plain_data_for_ai initial_session
    (mkInputs (Some (Ok balance_sheet)) None true (Some "Tổng tài sản?"))
  = run_script Str.vn_lower answering_service plain_data_for_ai initial_session
      (mkInputs (Some (Ok balance_sheet)) None true (Some "Tổng tài sản?")).
Proof.
  apply (no_key_no_call Str.vn_lower exhausted_service plain_data_for_ai
           answering_service).
  left. reflexivity.
Defined.

Lemma processed_upload_is_shown_and_cached_witness :
  exists t cr ratio_shown st' shown,
    process_financial_data Str.vn_lower balance_sheet = Ok t
    /\ current_ratio_block Str.vn_lower t = Ok (cr, ratio_shown)
    /\ run_script Str.vn_lower answering_service plain_data_for_ai initial_session
         (mkInputs (Some (Ok balance_sheet)) (Some "key") false None)
       = Ok (st', shown)
    /\ financial_data_context st' = Some (plain_data_for_ai t cr)
    /\ In (w_dataframe t) shown
    /\ incl ratio_shown shown.
Proof.
  eexists.
  destruct (processed_upload_is_shown_and_cached Str.vn_lower answering_service
              plain_data_for_ai initial_session
              (mkInputs (Some (Ok balance_sheet)) (Some "key") false None)
              balance_sheet _ eq_refl eq_refl)
    as (cr & rw & st' & shown & H).
  exists cr, rw, st', shown. split; [reflexivity|exact H].
Defined.

Lemma keyless_prompt_stays_in_history_witness :
  exists shown,
    chat_section exhausted_service
      (mkInputs (Some (Ok balance_sheet)) None false (Some "Tổng tài sản?"))
      (messages initial_session) "data"
    = Ok ((announce (messages initial_session)
           ++ [mkChatTurn "user" "Tổng tài sản?"])%list, shown).
Proof.
  destruct (keyless_prompt_stays_in_history exhausted_service
              (mkInputs (Some (Ok balance_sheet)) None false (Some "Tổng tài sản?"))
              (messages initial_session) "data" "Tổng tài sản?" eq_refl eq_refl)
    as (shown & H & _).
  exists shown. exact H.
Defined.

Lemma chat_reply_is_stored_witness :
  exists shown,
    chat_section exhausted_service
      (mkInputs (Some (Ok balance_sheet)) (Some "key") false (Some "Tổng tài sản?"))
      (messages initial_session) "data"
    = Ok (((announce (messages initial_session)
            ++ [mkChatTurn "user" "Tổng tài sản?"])
           ++ [mkChatTurn "assistant"
                 (chat_api_error (mkExn APIError "429 RESOURCE_EXHAUSTED"))])%list,
          shown).
Proof.
  destruct (chat_reply_is_stored exhausted_service
              (mkInputs (Some (Ok balance_sheet)) (Some "key") false
                 (Some "Tổng tài sản?"))
              (messages initial_session) "data" "Tổng tài sản?" "key"
              eq_refl eq_refl)
    as (shown & H & _).
  exists shown. exact H.
Defined.

Lemma removing_the_file_resets_the_chat_witness :
  exists t cr ratio_shown st1 shown1 shown2,
    process_financial_data Str.vn_lower balance_sheet = Ok t
    /\ current_ratio_block Str.vn_lower t = Ok (cr, ratio_shown)
    /\ run_script Str.vn_lower answering_service plain_data_for_ai initial_session
         (mkInputs (Some (Ok balance_sheet)) (Some "key") false
            (Some "Tổng tài sản?"))
       = Ok (st1, shown1)
    /\ run_script Str.vn_lower answering_service plain_data_for_ai st1
         (mkInputs None (Some "key") false None)
       = Ok (mkSession (messages initial_session) (Some (plain_data_for_ai t cr)),
             shown2).
Proof.
  eexists.
  destruct (removing_the_file_resets_the_chat Str.vn_lower answering_service
              plain_data_for_ai initial_session
              (mkInputs (Some (Ok balance_sheet)) (Some "key") false
                 (Some "Tổng tài sản?"))
              (mkInputs None (Some "key") false None)
              balance_sheet _ eq_refl eq_refl eq_refl eq_refl)
    as (cr & rw & st1 & s1 & s2 & H).
  exists cr, rw, st1, s1, s2. split; [reflexivity|exact H].
Defined.

Section ScriptFacts2.
Variable fold : N -> N.
Variable generate_content : string -> string -> Contents -> result string.
Variable data_for_ai : list EnrichedRow -> CurrentRatio -> string.

(** X16: the one-shot analysis is shown and nothing more.  Pressing the
    button or not, the pass leaves the same chat history and the same
    cached context. *)
Theorem analysis_leaves_session_alone (st st1 : Session)
    (file : option (result (list LineItem))) (key prompt : option string)
    (button button' : bool) (shown : list Widget) :
  run_script fold generate_content data_for_ai st
    (mkInputs file key button prompt) = Ok (st1, shown) ->
  exists shown',
    run_script fold generate_content data_for_ai st
      (mkInputs file key button' prompt) = Ok (st1, shown').
Proof.
  unfold run_script. cbn [uploaded_file].
  destruct file as [read_excel|]; [|intros H; eauto].
  rewrite !upload_pass_eq.
  destruct read_excel as [df|e0].
  - destruct (process_financial_data fold df) as [t|e1] eqn:Ht.
    + destruct (upload_body_ok fold generate_content data_for_ai st
                  (mkInputs (Some (Ok df)) key button prompt) df t Ht)
        as (cr & rw & aw & msgs' & cw & Hb & _ & Hc & E).
      destruct (upload_body_ok fold generate_content data_for_ai st
                  (mkInputs (Some (Ok df)) key button' prompt) df t Ht)
        as (cr2 & rw2 & aw2 & msgs2 & cw2 & Hb2 & _ & Hc2 & E2).
      rewrite Hb in Hb2. injection Hb2 as <- <-.
      rewrite chat_section_eq in Hc, Hc2. cbn [chat_input api_key] in Hc, Hc2.
      rewrite Hc in Hc2. injection Hc2 as <- <-.
      rewrite E, E2. cbn [bind fst snd api_key]. intros [= <- _]. eauto.
    + unfold upload_body. cbn [bind]. rewrite Ht. cbn [bind api_key].
      destruct (isinstance e1 ValueError); cbn [bind fst snd];
        intros [= <- _]; eauto.
  - unfold upload_body. cbn [bind api_key].
    destruct (isinstance e0 ValueError); cbn [bind fst snd];
      intros [= <- _]; eauto.
Qed.

(** X17: a request of the chat is grounded in the table of the same
    pass.  With a table that is processed, a prompt and a key, the pass
    leaves the announced history, the prompt and the reply of the call
    made with the context rendered from that table, which it caches,
    whatever context was cached before. *)
Theorem chat_is_grounded_in_current_table (st : Session) (inp : Inputs)
    (df : list LineItem) (t : list EnrichedRow) (p k : string) :
  uploaded_file inp = Some (Ok df) ->
  process_financial_data fold df = Ok t ->
  truthy (chat_input inp) = Some p ->
  truthy (api_key inp) = Some k ->
  exists cr ratio_shown shown,
    current_ratio_block fold t = Ok (cr, ratio_shown)
    /\ let msgs' := (announce (messages st) ++ [mkChatTurn "user" p])%list in
       let data := data_for_ai t cr in
       run_script fold generate_content data_for_ai st inp
       = Ok (mkSession
               (msgs' ++ [mkChatTurn "assistant"
                            (chat_reply generate_content msgs' p (Some data) k)])
               (Some data),
             shown).
Proof.
  intros Hfile Ht Hp Hk. unfold run_script. rewrite Hfile, upload_pass_eq.
  destruct (upload_body_ok fold generate_content data_for_ai st inp df t Ht)
    as (cr & rw & aw & msgs' & cw & Hb & _ & Hc & E).
  rewrite chat_section_eq, Hp, Hk in Hc. cbv zeta in Hc. injection Hc as <- _.
  rewrite E. cbn [bind fst snd]. exists cr, rw. eexists.
  split; [exact Hb|reflexivity].
Qed.

(** X10: showing the page again leaves the session as it is.  With no
    prompt submitted, a second pass over the same inputs leaves the
    session the first pass left, whatever the service answers this time;
    when the button is not pressed or there is no key, so that the
    service is not called, it also shows the same widgets. *)
Theorem rerun_is_stable
    (generate_content' : string -> string -> Contents -> result string)
    (st st1 : Session) (inp : Inputs) (shown : list Widget) :
  truthy (chat_input inp) = None ->
  run_script fold generate_content data_for_ai st inp = Ok (st1, shown) ->
  exists shown',
    run_script fold generate_content' data_for_ai st1 inp = Ok (st1, shown')
    /\ (analysis_button inp = false \/ truthy (api_key inp) = None ->
        shown' = shown).
Proof.
  intros Hchat. unfold run_script.
  destruct (uploaded_file inp) as [read_excel|].
  - rewrite !upload_pass_eq.
    destruct (upload_body fold generate_content data_for_ai st inp read_excel)
      as [res|e] eqn:E.
    + destruct read_excel as [df|e0]; [|discriminate].
      destruct (process_financial_data fold df) as [t|e1] eqn:Ht.
      * destruct (upload_body_ok fold generate_content data_for_ai st inp df t Ht)
          as (cr & rw & aw & msgs' & cw & Hb & Ha & Hc & E').
        rewrite E' in E. injection E as <-.
        rewrite chat_section_eq, Hchat in Hc. injection Hc as <- <-.
        cbn [bind fst snd]. intros [= <- <-].
        destruct (upload_body_ok fold generate_content' data_for_ai
                    (mkSession (announce (messages st)) (Some (data_for_ai t cr)))
                    inp df t Ht)
          as (cr2 & rw2 & aw2 & msgs2 & cw2 & Hb2 & Ha2 & Hc2 & E2).
        rewrite Hb in Hb2. injection Hb2 as <- <-.
        rewrite chat_section_eq, Hchat in Hc2. cbn [messages] in Hc2.
        rewrite announce_idem in Hc2. injection Hc2 as <- <-.
        rewrite E2. cbn [bind fst snd]. eexists. split; [reflexivity|].
        intros Hquiet.
        assert (Haw : aw2 = aw).
        { unfold analysis_section in Ha, Ha2.
          destruct Hquiet as [Hq|Hq]; rewrite Hq in Ha, Ha2.
          - congruence.
          - destruct (analysis_button inp); congruence. }
        now rewrite Haw.
      * unfold upload_body in E. cbn [bind] in E. rewrite Ht in E. discriminate.
    + assert (E2 : forall st',
                upload_body fold generate_content' data_for_ai st' inp read_excel
                = Raise e).
      { intros st'. destruct read_excel as [df|e0]; [|exact E].
        destruct (process_financial_data fold df) as [t|e1] eqn:Ht.
        - destruct (upload_body_ok fold generate_content data_for_ai st inp df t Ht)
            as (? & ? & ? & ? & ? & _ & _ & _ & E').
          rewrite E' in E. discriminate.
        - unfold upload_body in *. cbn [bind] in *. rewrite Ht in *. exact E. }
      rewrite E2.
      destruct (isinstance e ValueError); cbn [bind fst snd];
        intros [= <- <-]; eexists; split; reflexivity.
  - unfold idle_pass. destruct (messages st) as [|m0 rest] eqn:Hm; [discriminate|].
    destruct (Str.startswith (content m0) uploaded_prefix) eqn:Hs;
      intros [= <- <-]; cbn [messages financial_data_context].
    + eexists. split; reflexivity.
    + rewrite Hs. eexists. split; reflexivity.
Qed.

End ScriptFacts2.

Lemma analysis_leaves_session_alone_witness :
  exists st1 shown,
    run_script Str.vn_lower answering_service plain_data_for_ai initial_session
      (mkInputs (Some (Ok balance_sheet)) (Some "key") true None)
    = Ok (st1, shown)
    /\ exists shown',
         run_script Str.vn_lower answering_service plain_data_for_ai
           initial_session
           (mkInputs (Some (Ok balance_sheet)) (Some "key") false None)
         = Ok (st1, shown').
Proof.
  do 2 eexists. split; [vm_compute; reflexivity|].
  eapply (analysis_leaves_session_alone Str.vn_lower answering_service
            plain_data_for_ai initial_session _ _ _ _ true false).
  vm_compute. reflexivity.
Defined.

Lemma chat_is_grounded_in_current_table_witness :
  exists t cr ratio_shown shown,
    process_financial_data Str.vn_lower balance_sheet = Ok t
    /\ current_ratio_block Str.vn_lower t = Ok (cr, ratio_shown)
    /\ run_script Str.vn_lower answering_service plain_data_for_ai
         (mkSession (messages initial_session) (Some "stale"))
         (mkInputs (Some (Ok balance_sheet)) (Some "key") false
            (Some "Tổng tài sản?"))
       = Ok (mkSession
               [mkChatTurn "assistant" uploaded_prompt;
                mkChatTurn "user" "Tổng tài sản?";
                mkChatTurn "assistant" "Tài sản tăng gấp đôi."]
               (Some (plain_data_for_ai t cr)),
             shown).
Proof.
  eexists.
  destruct (chat_is_grounded_in_current_table Str.vn_lower answering_service
              plain_data_for_ai
              (mkSession (messages initial_session) (Some "stale"))
              (mkInputs (Some (Ok balance_sheet)) (Some "key") false
                 (Some "Tổng tài sản?"))
              balance_sheet _ "Tổng tài sản?" "key"
              eq_refl eq_refl eq_refl eq_refl)
    as (cr & rw & shown & Hb & H).
  exists cr, rw, shown. split; [reflexivity|]. split; [exact Hb|exact H].
Defined.

Local Open Scope float_scope.

Lemma first_value_In (fold : N -> N) (pat : string) (col : LineItem -> float)
    (t : list EnrichedRow) (x : float) :
  first_value fold pat col t = Ok x ->
  exists e, In e t /\ x = col (item e).
Proof.
  unfold first_value.
  destruct (rows_matching fold pat (map item t)) as [|r l] eqn:E;
    [discriminate|].
  simpl. intros [= <-].
  assert (H : In r (rows_matching fold pat (map item t)))
    by (rewrite E; now left).
  unfold rows_matching in H. apply filter_In in H. destruct H as [H _].
  apply in_map_iff in H. destruct H as (e & <- & He). eauto.
Qed.

Lemma processed_cells_are_regular (fold : N -> N) (df : list LineItem)
    (t : list EnrichedRow) :
  process_financial_data fold df = Ok t ->
  Forall (fun r => is_infinity (nam_truoc r) = false
                   /\ is_infinity (nam_sau r) = false) df ->
  Forall (fun e => forall col, col = nam_truoc \/ col = nam_sau ->
                   is_nan (col (item e)) = false
                   /\ is_infinity (col (item e)) = false) t.
Proof.
  intros Ht Hfin.
  destruct (process_financial_data_Ok _ _ _ Ht) as (r0 & rest & _ & ->).
  rewrite Forall_forall in Hfin.
  apply Forall_forall. intros e He.
  apply in_map_iff in He. destruct He as (c & <- & Hc).
  apply in_map_iff in Hc. destruct Hc as (r & <- & Hr).
  destruct (Hfin _ Hr) as [F1 F2].
  intros col [-> | ->]; simpl;
    split; auto using fillna0_not_nan, fillna0_not_inf.
Qed.

(** X18: the two current ratios are numbers.  For a table with no
    infinite cell, when the block computes the ratios, neither the ratio
    of the prior period nor that of the current period is NaN. *)
Theorem current_ratios_are_not_nan (fold : N -> N) (df : list LineItem)
    (t : list EnrichedRow) (n_1 n : float) (d : Metric) :
  process_financial_data fold df = Ok t ->
  Forall (fun r => is_infinity (nam_truoc r) = false
                   /\ is_infinity (nam_sau r) = false) df ->
  current_ratio fold t = Ok (mkCurrentRatio (Num n_1) (Num n) d) ->
  is_nan n_1 = false /\ is_nan n = false.
Proof.
  intros Ht Hfin. pose proof (processed_cells_are_regular _ _ _ Ht Hfin) as Hreg.
  rewrite Forall_forall in Hreg.
  unfold current_ratio.
  destruct (first_value fold TAI_SAN_NGAN_HAN nam_sau t) as [a|] eqn:Ea;
    [|discriminate].
  destruct (first_value fold TAI_SAN_NGAN_HAN nam_truoc t) as [a1|] eqn:Ea1;
    [|discriminate].
  destruct (first_value fold NO_NGAN_HAN nam_sau t) as [l|] eqn:El;
    [|discriminate].
  destruct (first_value fold NO_NGAN_HAN nam_truoc t) as [l1|] eqn:El1;
    [|discriminate].
  cbn [bind].
  destruct (neq0 l && neq0 l1) eqn:Hz; [|discriminate].
  apply andb_true_iff in Hz. destruct Hz as [Hl Hl1].
  unfold neq0 in Hl, Hl1. apply negb_true_iff in Hl, Hl1.
  intros [= <- <- _].
  destruct (first_value_In _ _ _ _ _ Ea) as (ea & Ia & ->).
  destruct (first_value_In _ _ _ _ _ Ea1) as (ea1 & Ia1 & ->).
  destruct (first_value_In _ _ _ _ _ El) as (el & Il & ->).
  destruct (first_value_In _ _ _ _ _ El1) as (el1 & Il1 & ->).
  split; apply div_not_nan; trivial;
    first [ apply (Hreg _ Ia nam_sau); now right
          | apply (Hreg _ Ia1 nam_truoc); now left
          | apply (Hreg _ Il nam_sau); now right
          | apply (Hreg _ Il1 nam_truoc); now left ].
Qed.

Lemma current_ratios_are_not_nan_witness :
  exists t n_1 n d,
    process_financial_data Str.vn_lower balance_sheet = Ok t
    /\ current_ratio Str.vn_lower t = Ok (mkCurrentRatio (Num n_1) (Num n) d)
    /\ is_nan n_1 = false /\ is_nan n = false.
Proof.
  do 4 eexists. split; [vm_compute; reflexivity|].
  split; [vm_compute; reflexivity|].
  eapply (current_ratios_are_not_nan Str.vn_lower balance_sheet).
  - vm_compute. reflexivity.
  - repeat constructor.
  - vm_compute. reflexivity.
Defined.

Lemma rerun_is_stable_witness :
  exists st1 shown shown',
    run_script Str.vn_lower answering_service plain_data_for_ai initial_session
      (mkInputs (Some (Ok balance_sheet)) (Some "key") true None)
    = Ok (st1, shown)
    /\ run_script Str.vn_lower exhausted_service plain_data_for_ai st1
         (mkInputs (Some (Ok balance_sheet)) (Some "key") true None)
       = Ok (st1, shown').
Proof.
  do 2 eexists.
  assert (H : run_script Str.vn_lower answering_service plain_data_for_ai
                initial_session
                (mkInputs (Some (Ok balance_sheet)) (Some "key") true None)
              = Ok (?[st1], ?[shown])) by (vm_compute; reflexivity).
  destruct (rerun_is_stable Str.vn_lower answering_service plain_data_for_ai
              exhausted_service initial_session _
              (mkInputs (Some (Ok balance_sheet)) (Some "key") true None)
              _ eq_refl H)
    as (shown' & H' & _).
  exists shown'. split; [exact H|exact H'].
Defined.

